(** * Blog API: authorization, comment moderation and like toggling

    A shallow embedding of the Express/Mongoose handlers of the blog API
    (controllers/postController.js, controllers/commentController.js,
    controllers/categoryController.js, controllers/tagController.js,
    controllers/userController.js) and of the schemas they write to
    (models/Post.js, models/Comment.js, models/Category.js, models/Tag.js,
    models/User.js).

    Modelling conventions.
    - A collection is a finite map from [_id] to document.  An ObjectId is
      represented by its hexadecimal rendering, so the source's
      [a.toString() !== b.toString()] is inequality of strings.
    - A handler is a function from the database and the request to the new
      database and the response.  [return res.status(n).json(...)] is the
      response [Json n ...]; a rejected promise, which [asyncHandler] hands
      to [next], is the response [Next err].
    - [validationResult(req)] is an input of the handler: the list of errors
      left by the express-validator chain mounted before it, and [req.body]
      is the body that chain has sanitised.
    - [new Date()] and [Date.now()] read a clock that is passed in ([now],
      milliseconds); the [_id] of a new document is passed in as well.
    - A body field is absent ([None]) or carries a value of the type of the
      schema path; JSON [null] is modelled only for [publishedAt].  Every id
      in a request is a well-formed ObjectId, so that no cast fails.
    - A [ValidationError] names the first path that fails.
    - A string is the sequence of bytes of its UTF-8 encoding.  The
      [maxlength] validators count UTF-16 code units, as JavaScript's
      [length] does ([jsLength]).  Lower-casing, [[a-zA-Z0-9]] and [\s] are
      modelled on ASCII bytes only, so the statements about slugs and read
      times are made for ASCII text ([isAscii]).
    - [views] is an integer; [$inc] is exact while the counter stays below
      2^53, and the statements about it are made in that range.
    - [doc.save()] runs the validators, then the [pre("save")] hook, then
      the write; what the hook has written to other documents stays written
      when the write itself fails.
    - [Comment.create(req.body)] takes every schema path that the body
      carries.  The casts of [likes], [replies] and [editedAt] values are
      not modelled, so the statement that a comment is created assumes a
      body without these paths.  [Post.findByIdAndUpdate(id, req.body)] is
      modelled for a body of plain paths; the statement about what an
      update leaves alone is limited to what holds for update operators as
      well.
    - The [createdAt]/[updatedAt] stamps that the [timestamps] schema option
      maintains are not part of the model. *)

From Stdlib Require Import ZArith String Ascii List Bool Lia.
From stdpp Require Import base option list gmap strings fin_maps pretty.

Open Scope string_scope.
Open Scope list_scope.

Abbreviation ObjectId := string (only parsing).
Abbreviation Date := Z (only parsing).

(** ** JavaScript and Mongoose primitives *)

(** [if (s)] on a string that may be undefined. *)
Definition truthy (o : option string) : bool :=
  match o with
  | Some s => negb (String.eqb s "")
  | None => false
  end.

(** [Array.prototype.includes] on an array of strings; an undefined argument
    is never found. *)
Definition includes (l : list string) (o : option string) : bool :=
  match o with
  | Some s => existsb (String.eqb s) l
  | None => false
  end.

(** [MongooseArray.prototype.includes(id)]: some element has the same
    rendering. *)
Definition arr_includes (arr : list ObjectId) (id : ObjectId) : bool :=
  existsb (String.eqb id) arr.

(** [MongooseArray.prototype.pull(id)] removes every element equal to [id]. *)
Definition arr_pull (arr : list ObjectId) (id : ObjectId) : list ObjectId :=
  List.filter (fun x => negb (String.eqb id x)) arr.

(** [MongooseArray.prototype.push(id)] appends. *)
Definition arr_push (arr : list ObjectId) (id : ObjectId) : list ObjectId :=
  arr ++ [id].

(** [s.length]: the number of UTF-16 code units of the text that the bytes of
    [s] encode in UTF-8.  A continuation byte (10xxxxxx) counts for nothing,
    the lead byte of a four-byte sequence for two units, every other byte
    for one. *)
Fixpoint jsLength (s : string) : nat :=
  match s with
  | EmptyString => 0
  | String c s' =>
      let n := nat_of_ascii c in
      (if Nat.leb 128 n && Nat.ltb n 192 then 0
       else if Nat.leb 240 n then 2 else 1) + jsLength s'
  end.

(** [errors.isEmpty()]. *)
Definition isEmpty {A} (l : list A) : bool :=
  match l with
  | [] => true
  | _ :: _ => false
  end.

(** Errors thrown by Mongoose and by the MongoDB driver. *)
Inductive MongooseError :=
| ValidationError (path : string)
| DuplicateKey (id : ObjectId).

(** The authenticated caller that the [protect] middleware stores in
    [req.user]. *)
Record User := mkUser { _id : ObjectId; role : string }.

(** ** models/Comment.js *)

Module Comment.

Record t := mk {
  content : string;
  author : ObjectId;
  post : ObjectId;
  parentComment : option ObjectId;
  replies : list ObjectId;
  likes : list ObjectId;
  status : string;
  isEdited : bool;
  editedAt : option Date;
  isActive : bool
}.

Definition statusEnum : list string := ["pending"; "approved"; "rejected"].

(** The validators declared on the schema paths: [required] and
    [maxlength] on [content], [enum] on [status].  ([author] and [post]
    are required as well; they are always present in a [t].) *)
Definition validateContent (s : string) : option MongooseError :=
  if String.eqb s "" then Some (ValidationError "content")
  else if Nat.ltb 1000 (jsLength s) then Some (ValidationError "content")
  else None.

Definition validateStatus (s : string) : option MongooseError :=
  if existsb (String.eqb s) statusEnum then None
  else Some (ValidationError "status").

Definition validate (c : t) : option MongooseError :=
  match validateContent (content c) with
  | Some e => Some e
  | None => validateStatus (status c)
  end.

(** [commentSchema.pre("save", ...)].  [isNew] and [modified] are the
    document's [isNew] flag and its modified paths; the hook updates the
    parent's [replies] in the collection and marks an edited document. *)
Definition pre_save (now : Date) (isNew : bool) (modified : list string)
    (id : ObjectId) (this : t) (coll : gmap string t) : gmap string t * t :=
  let coll :=
    match parentComment this with
    | Some p =>
        if isNew
        then alter (fun d => mk (content d) (author d) (post d)
                                (parentComment d) (arr_push (replies d) id)
                                (likes d) (status d) (isEdited d)
                                (editedAt d) (isActive d)) p coll
        else coll
    | None => coll
    end in
  let this :=
    if existsb (String.eqb "content") modified && negb isNew
    then mk (content this) (author this) (post this) (parentComment this)
            (replies this) (likes this) (status this) true (Some now)
            (isActive this)
    else this in
  (coll, this).

(** [doc.save()]: validate the document, run the hook, write the document.
    The result is the collection after the call and the error or the
    document.  The hook has run, and has written to the parent, when the
    insert of a new document finds its [_id] taken. *)
Definition save (now : Date) (isNew : bool) (modified : list string)
    (id : ObjectId) (doc : t) (coll : gmap string t)
    : gmap string t * (MongooseError + t) :=
  match validate doc with
  | Some e => (coll, inl e)
  | None =>
      let '(coll, doc) := pre_save now isNew modified id doc coll in
      if isNew && bool_decide (is_Some (coll !! id))
      then (coll, inl (DuplicateKey id))
      else (<[id := doc]> coll, inr doc)
  end.

(** The update document that [updateComment] builds:
    [{ content: req.body.content }], plus [status] for a moderator. *)
Record update := mkUpdate {
  u_content : option string;
  u_status : option string
}.

Definition applyUpdate (u : update) (d : t) : t :=
  mk (default (content d) (u_content u)) (author d) (post d)
     (parentComment d) (replies d) (likes d)
     (default (status d) (u_status u)) (isEdited d) (editedAt d)
     (isActive d).

(** [Comment.findByIdAndUpdate(id, u, { new: true, runValidators: true })]:
    the validators of the paths that are set run, an undefined value sets
    nothing, the document is rewritten in place and returned.  No [save]
    middleware runs on this path. *)
Definition findByIdAndUpdate (id : ObjectId) (u : update)
    (coll : gmap string t) : MongooseError + (gmap string t * option t) :=
  match from_option validateContent None (u_content u) with
  | Some e => inl e
  | None =>
      match from_option validateStatus None (u_status u) with
      | Some e => inl e
      | None =>
          match coll !! id with
          | Some d => let d' := applyUpdate u d in
                      inr (<[id := d']> coll, Some d')
          | None => inr (coll, None)
          end
      end
  end.

(** [req.body] of the comment routes, at the paths of the schema. *)
Record body := mkBody {
  b_content : option string;
  b_author : option ObjectId;
  b_post : option ObjectId;
  b_parentComment : option ObjectId;
  b_replies : option (list ObjectId);
  b_likes : option (list ObjectId);
  b_status : option string;
  b_isEdited : option bool;
  b_editedAt : option Date;
  b_isActive : option bool
}.

(** [{ ...req.body, author: a, post: p }]. *)
Definition withAuthorPost (b : body) (a p : ObjectId) : body :=
  mkBody (b_content b) (Some a) (Some p) (b_parentComment b) (b_replies b)
         (b_likes b) (b_status b) (b_isEdited b) (b_editedAt b)
         (b_isActive b).

(** [Comment.create(data)]: [new Comment(data)] fills the schema defaults
    and the document is saved as a new one.  A missing required path fails
    validation. *)
Definition create (now : Date) (id : ObjectId) (b : body)
    (coll : gmap string t) : gmap string t * (MongooseError + t) :=
  match b_content b, b_author b, b_post b with
  | None, _, _ => (coll, inl (ValidationError "content"))
  | _, None, _ => (coll, inl (ValidationError "author"))
  | _, _, None => (coll, inl (ValidationError "post"))
  | Some co, Some au, Some po =>
      let doc :=
        mk co au po (b_parentComment b) (default [] (b_replies b))
           (default [] (b_likes b)) (default "approved" (b_status b))
           (default false (b_isEdited b)) (b_editedAt b)
           (default true (b_isActive b)) in
      save now true ["content"; "author"; "post"] id doc coll
  end.

End Comment.

(** ** models/Post.js *)

Module Post.

Record t := mk {
  title : string;
  slug : option string;
  content : string;
  excerpt : option string;
  featuredImage : string;
  author : ObjectId;
  category : ObjectId;
  tags : list ObjectId;
  status : string;
  publishedAt : option Date;
  views : Z;
  likes : list ObjectId;
  readTime : nat;
  isActive : bool
}.

Definition statusEnum : list string := ["draft"; "published"; "archived"].

(** Characters as bytes: [a-zA-Z0-9], ASCII upper case, and the ASCII
    members of the regular expression class [\s]. *)
Definition isAlnum (c : ascii) : bool :=
  let n := nat_of_ascii c in
  (Nat.leb 48 n && Nat.leb n 57) || (Nat.leb 65 n && Nat.leb n 90)
  || (Nat.leb 97 n && Nat.leb n 122).

Definition lowerChar (c : ascii) : ascii :=
  let n := nat_of_ascii c in
  if Nat.leb 65 n && Nat.leb n 90 then ascii_of_nat (n + 32) else c.

Definition isSpace (c : ascii) : bool :=
  let n := nat_of_ascii c in
  (Nat.leb 9 n && Nat.leb n 13) || Nat.eqb n 32.

Definition dash : ascii := "-"%char.

(** [.toLowerCase().replace(/[^a-zA-Z0-9]/g, "-").replace(/-+/g, "-")]:
    [prevDash] tells that the character written last was a dash. *)
Fixpoint dashed (prevDash : bool) (s : string) : string :=
  match s with
  | EmptyString => EmptyString
  | String c s' =>
      let c := lowerChar c in
      if isAlnum c then String c (dashed false s')
      else if prevDash then dashed true s'
      else String dash (dashed true s')
  end.

(** The last replacement, of [/^-|-$/g] by the empty string: one dash off
    each end. *)
Fixpoint dropLastDash (s : string) : string :=
  match s with
  | EmptyString => EmptyString
  | String c EmptyString => if Ascii.eqb c dash then EmptyString else s
  | String c s' => String c (dropLastDash s')
  end.

Definition dropFirstDash (s : string) : string :=
  match s with
  | String c s' => if Ascii.eqb c dash then s' else s
  | EmptyString => EmptyString
  end.

Definition slugify (title : string) : string :=
  dropLastDash (dropFirstDash (dashed false title)).

(** [content.split(/\s+/).length]: one more than the number of maximal
    runs of white space. *)
Fixpoint spaceRuns (inRun : bool) (s : string) : nat :=
  match s with
  | EmptyString => 0
  | String c s' =>
      if isSpace c then (if inRun then 0 else 1) + spaceRuns true s'
      else spaceRuns false s'
  end.

Definition wordCount (s : string) : nat := S (spaceRuns false s).

(** [Math.ceil(n / 200)]. *)
Definition ceilDiv200 (n : nat) : nat := (n + 199) / 200.

(** The validators declared on the schema paths. *)
Definition validateTitle (s : string) : option MongooseError :=
  if String.eqb s "" then Some (ValidationError "title")
  else if Nat.ltb 200 (jsLength s) then Some (ValidationError "title")
  else None.

Definition validateContent (s : string) : option MongooseError :=
  if String.eqb s "" then Some (ValidationError "content") else None.

Definition validateExcerpt (s : string) : option MongooseError :=
  if Nat.ltb 300 (jsLength s) then Some (ValidationError "excerpt")
  else None.

Definition validateStatus (s : string) : option MongooseError :=
  if existsb (String.eqb s) statusEnum then None
  else Some (ValidationError "status").

(** The first error among optional checks. *)
Fixpoint firstError (l : list (option MongooseError)) : option MongooseError :=
  match l with
  | [] => None
  | Some e :: _ => Some e
  | None :: l' => firstError l'
  end.

Definition validate (p : t) : option MongooseError :=
  firstError [validateTitle (title p); validateContent (content p);
              from_option validateExcerpt None (excerpt p);
              validateStatus (status p)].

(** [postSchema.pre("save", ...)]: the slug follows a modified title, the
    publication date is stamped when a published post has none, the read
    time follows the content. *)
Definition pre_save (now : Date) (modified : list string) (this : t) : t :=
  let slug' :=
    if negb (String.eqb (title this) "")
       && existsb (String.eqb "title") modified
    then Some (slugify (title this) +:+ "-" +:+ pretty now)
    else slug this in
  let publishedAt' :=
    if String.eqb (status this) "published"
       && negb (bool_decide (is_Some (publishedAt this)))
    then Some now
    else publishedAt this in
  let readTime' :=
    if negb (String.eqb (content this) "")
    then ceilDiv200 (wordCount (content this))
    else readTime this in
  mk (title this) slug' (content this) (excerpt this) (featuredImage this)
     (author this) (category this) (tags this) (status this) publishedAt'
     (views this) (likes this) readTime' (isActive this).

(** [doc.save()]. *)
Definition save (now : Date) (isNew : bool) (modified : list string)
    (id : ObjectId) (doc : t) (coll : gmap string t)
    : MongooseError + (gmap string t * t) :=
  match validate doc with
  | Some e => inl e
  | None =>
      if isNew && bool_decide (is_Some (coll !! id)) then inl (DuplicateKey id)
      else
        let doc := pre_save now modified doc in
        inr (<[id := doc]> coll, doc)
  end.

(** [req.body] of the post routes, at the paths of the schema.  The outer
    option of [b_publishedAt] is presence, the inner one is JSON null. *)
Record body := mkBody {
  b_title : option string;
  b_slug : option string;
  b_content : option string;
  b_excerpt : option string;
  b_featuredImage : option string;
  b_author : option ObjectId;
  b_category : option ObjectId;
  b_tags : option (list ObjectId);
  b_status : option string;
  b_publishedAt : option (option Date);
  b_views : option Z;
  b_likes : option (list ObjectId);
  b_readTime : option nat;
  b_isActive : option bool
}.

(** The paths a body sets. *)
Definition present {A} (path : string) (o : option A) : list string :=
  match o with
  | Some _ => [path]
  | None => []
  end.

Definition paths (b : body) : list string :=
  present "title" (b_title b) ++ present "slug" (b_slug b)
  ++ present "content" (b_content b) ++ present "excerpt" (b_excerpt b)
  ++ present "featuredImage" (b_featuredImage b)
  ++ present "author" (b_author b) ++ present "category" (b_category b)
  ++ present "tags" (b_tags b) ++ present "status" (b_status b)
  ++ present "publishedAt" (b_publishedAt b) ++ present "views" (b_views b)
  ++ present "likes" (b_likes b) ++ present "readTime" (b_readTime b)
  ++ present "isActive" (b_isActive b).

(** The [lowercase: true] setter of [slug]. *)
Fixpoint toLowerCase (s : string) : string :=
  match s with
  | EmptyString => EmptyString
  | String c s' => String (lowerChar c) (toLowerCase s')
  end.

(** [Post.create(body)]: [new Post(body)] runs the setters and fills the
    schema defaults, then the document is saved.  A missing required path
    fails validation.  (The [trim] setters of [title] and [content] find
    text that the validation chain has trimmed already.) *)
Definition create (now : Date) (id : ObjectId) (b : body)
    (coll : gmap string t) : MongooseError + (gmap string t * t) :=
  match b_title b, b_content b, b_author b, b_category b with
  | None, _, _, _ => inl (ValidationError "title")
  | _, None, _, _ => inl (ValidationError "content")
  | _, _, None, _ => inl (ValidationError "author")
  | _, _, _, None => inl (ValidationError "category")
  | Some ti, Some co, Some au, Some ca =>
      let doc :=
        mk ti (toLowerCase <$> b_slug b) co (b_excerpt b)
           (default "" (b_featuredImage b))
           au ca (default [] (b_tags b)) (default "draft" (b_status b))
           (mjoin (b_publishedAt b)) (default 0%Z (b_views b))
           (default [] (b_likes b)) (default 1 (b_readTime b))
           (default true (b_isActive b)) in
      save now true (paths b) id doc coll
  end.

Definition applyUpdate (b : body) (d : t) : t :=
  mk (default (title d) (b_title b))
     (from_option (fun s => Some (toLowerCase s)) (slug d) (b_slug b))
     (default (content d) (b_content b))
     (from_option Some (excerpt d) (b_excerpt b))
     (default (featuredImage d) (b_featuredImage b))
     (default (author d) (b_author b))
     (default (category d) (b_category b))
     (default (tags d) (b_tags b))
     (default (status d) (b_status b))
     (default (publishedAt d) (b_publishedAt b))
     (default (views d) (b_views b))
     (default (likes d) (b_likes b))
     (default (readTime d) (b_readTime b))
     (default (isActive d) (b_isActive b)).

(** [Post.findByIdAndUpdate(id, body, { new: true, runValidators: true })]:
    the setters and the validators of the paths that are set run, the
    document is rewritten in place and returned.  No [save] middleware
    runs here. *)
Definition findByIdAndUpdate (id : ObjectId) (b : body)
    (coll : gmap string t) : MongooseError + (gmap string t * option t) :=
  match firstError [from_option validateTitle None (b_title b);
                    from_option validateContent None (b_content b);
                    from_option validateExcerpt None (b_excerpt b);
                    from_option validateStatus None (b_status b)] with
  | Some e => inl e
  | None =>
      match coll !! id with
      | Some d => let d' := applyUpdate b d in
                  inr (<[id := d']> coll, Some d')
      | None => inr (coll, None)
      end
  end.

End Post.

(** ** models/Category.js and models/Tag.js *)

Module Category.
Record t := mk {
  name : string;
  slug : option string;
  description : option string;
  color : string;
  isActive : bool
}.
End Category.

Module Tag.
Record t := mk {
  name : string;
  slug : option string;
  color : string;
  isActive : bool
}.
End Tag.

(** ** The database and the responses *)

Record DB := mkDB {
  posts : gmap string Post.t;
  comments : gmap string Comment.t;
  categories : gmap string Category.t;
  tags : gmap string Tag.t
}.

Definition setPosts (db : DB) (c : gmap string Post.t) : DB :=
  mkDB c (comments db) (categories db) (tags db).
Definition setComments (db : DB) (c : gmap string Comment.t) : DB :=
  mkDB (posts db) c (categories db) (tags db).
Definition setCategories (db : DB) (c : gmap string Category.t) : DB :=
  mkDB (posts db) (comments db) c (tags db).
Definition setTags (db : DB) (c : gmap string Tag.t) : DB :=
  mkDB (posts db) (comments db) (categories db) c.

(** [Model.countDocuments(query)], the query given as a predicate. *)
Definition countDocuments {V} (q : V -> bool) (coll : gmap string V) : nat :=
  length (List.filter (fun kv => q (snd kv)) (map_to_list coll)).

(** [Model.find({ _id: { $in: ids } }).length]. *)
Definition countIn {V} (ids : list ObjectId) (coll : gmap string V) : nat :=
  length (List.filter (fun kv => existsb (String.eqb (fst kv)) ids)
                      (map_to_list coll)).

(** The [data] member of a response body. *)
Inductive Data :=
| NoData
| Errors (errors : list string)
| PostDoc (doc : option Post.t)
| CommentDoc (doc : option Comment.t)
| LikeData (likes : nat) (isLiked : bool).

Inductive Response :=
| Json (code : nat) (success : bool) (message : string) (data : Data)
| Next (err : MongooseError).

Definition statusCode (r : Response) : option nat :=
  match r with
  | Json code _ _ _ => Some code
  | Next _ => None
  end.

Definition succeeded (r : Response) : bool :=
  match r with
  | Json _ success _ _ => success
  | Next _ => false
  end.

(** ** Tests shared by the handlers *)

(** [req.user.role === "admin" || req.user.role === "editor"]. *)
Definition isAdminOrEditor (user : User) : bool :=
  String.eqb (role user) "admin" || String.eqb (role user) "editor".

Definition validationErrors (errors : list string) : Response :=
  Json 400 false "Validation errors" (Errors errors).

(** ** controllers/commentController.js *)

(** [POST /api/posts/:postId/comments]. *)
Definition createComment (now : Date) (newId : ObjectId) (db : DB)
    (errors : list string) (user : User) (postId : ObjectId)
    (body : Comment.body) : DB * Response :=
  if negb (isEmpty errors) then (db, validationErrors errors)
  else
    (* Post.findOne({ _id: postId, status: "published", isActive: true }) *)
    let post :=
      match posts db !! postId with
      | Some p =>
          if String.eqb (Post.status p) "published" && Post.isActive p
          then Some p else None
      | None => None
      end in
    match post with
    | None =>
        (db, Json 404 false
               ("Published post not found with id of " +:+ postId) NoData)
    | Some _ =>
        (* Comment.findOne({ _id: parentComment, post: postId, isActive: true }) *)
        let parentMissing :=
          if truthy (Comment.b_parentComment body)
          then
            match Comment.b_parentComment body ≫= fun p => comments db !! p with
            | Some c =>
                negb (String.eqb (Comment.post c) postId && Comment.isActive c)
            | None => true
            end
          else false in
        if parentMissing
        then (db, Json 400 false "Invalid parent comment ID" NoData)
        else
          let commentData := Comment.withAuthorPost body (_id user) postId in
          match Comment.create now newId commentData (comments db) with
          | (coll, inl e) => (setComments db coll, Next e)
          | (coll, inr _) =>
              (setComments db coll,
               Json 201 true "Comment created successfully"
                    (CommentDoc (coll !! newId)))
          end
    end.

(** The update document of [updateComment]: [{ content: req.body.content }],
    to which an admin or editor may add [status]. *)
Definition updateDataOf (user : User) (body : Comment.body) : Comment.update :=
  Comment.mkUpdate
    (Comment.b_content body)
    (if isAdminOrEditor user && truthy (Comment.b_status body)
     then Comment.b_status body else None).

(** [PUT /api/comments/:id]. *)
Definition updateComment (db : DB) (errors : list string) (user : User)
    (id : ObjectId) (body : Comment.body) : DB * Response :=
  if negb (isEmpty errors) then (db, validationErrors errors)
  else
    match comments db !! id with
    | None =>
        (db, Json 404 false ("Comment not found with id of " +:+ id) NoData)
    | Some comment =>
        if negb (String.eqb (Comment.author comment) (_id user))
           && negb (String.eqb (role user) "admin")
           && negb (String.eqb (role user) "editor")
        then (db, Json 403 false "Not authorized to update this comment" NoData)
        else
          let updateData := updateDataOf user body in
          match Comment.findByIdAndUpdate id updateData (comments db) with
          | inl e => (db, Next e)
          | inr (coll, doc) =>
              (setComments db coll,
               Json 200 true "Comment updated successfully" (CommentDoc doc))
          end
    end.

(** [DELETE /api/comments/:id]: the comment and its direct replies. *)
Definition deleteComment (db : DB) (user : User) (id : ObjectId)
    : DB * Response :=
  match comments db !! id with
  | None =>
      (db, Json 404 false ("Comment not found with id of " +:+ id) NoData)
  | Some comment =>
      if negb (String.eqb (Comment.author comment) (_id user))
         && negb (String.eqb (role user) "admin")
      then (db, Json 403 false "Not authorized to delete this comment" NoData)
      else
        let coll :=
          filter (fun kv => Comment.parentComment (snd kv) <> Some id)
                 (comments db) in
        (setComments db (delete id coll),
         Json 200 true "Comment deleted successfully" NoData)
  end.

(** [PUT /api/comments/:id/like]. *)
Definition toggleLikeComment (now : Date) (db : DB) (user : User)
    (id : ObjectId) : DB * Response :=
  match comments db !! id with
  | None =>
      (db, Json 404 false ("Comment not found with id of " +:+ id) NoData)
  | Some c =>
      let isLiked := arr_includes (Comment.likes c) (_id user) in
      let likes' :=
        if isLiked then arr_pull (Comment.likes c) (_id user)
        else arr_push (Comment.likes c) (_id user) in
      let comment :=
        Comment.mk (Comment.content c) (Comment.author c) (Comment.post c)
                   (Comment.parentComment c) (Comment.replies c) likes'
                   (Comment.status c) (Comment.isEdited c)
                   (Comment.editedAt c) (Comment.isActive c) in
      match Comment.save now false ["likes"] id comment (comments db) with
      | (_, inl e) => (db, Next e)
      | (coll, inr comment) =>
          (setComments db coll,
           Json 200 true
                (if isLiked then "Comment unliked successfully"
                 else "Comment liked successfully")
                (LikeData (length (Comment.likes comment)) (negb isLiked)))
      end
  end.

(** [PUT /api/comments/:id/moderate]; [status] is [req.body.status].  The
    route admits admins and editors only. *)
Definition moderateComment (now : Date) (db : DB) (id : ObjectId)
    (status : option string) : DB * Response :=
  if negb (includes ["approved"; "rejected"] status)
  then (db, Json 400 false "Status must be either approved or rejected" NoData)
  else
    match comments db !! id with
    | None =>
        (db, Json 404 false ("Comment not found with id of " +:+ id) NoData)
    | Some c =>
        let status := default "" status in
        let comment :=
          Comment.mk (Comment.content c) (Comment.author c) (Comment.post c)
                     (Comment.parentComment c) (Comment.replies c)
                     (Comment.likes c) status (Comment.isEdited c)
                     (Comment.editedAt c) (Comment.isActive c) in
        match Comment.save now false ["status"] id comment (comments db) with
        | (_, inl e) => (db, Next e)
        | (coll, inr comment) =>
            (setComments db coll,
             Json 200 true ("Comment " +:+ status +:+ " successfully")
                  (CommentDoc (Some comment)))
        end
    end.

(** ** controllers/postController.js *)

(** [req.body.tags && req.body.tags.length > 0] followed by the comparison
    of [Tag.find({ _id: { $in: tags } }).length] with [tags.length]. *)
Definition tagsInvalid (db : DB) (body : Post.body) : bool :=
  match Post.b_tags body with
  | Some (t :: ts) =>
      negb (Nat.eqb (countIn (t :: ts) (tags db)) (length (t :: ts)))
  | _ => false
  end.

(** [POST /api/posts]; the route admits admins and editors only. *)
Definition createPost (now : Date) (newId : ObjectId) (db : DB)
    (errors : list string) (user : User) (body : Post.body)
    : DB * Response :=
  if negb (isEmpty errors) then (db, validationErrors errors)
  else
    match Post.b_category body ≫= fun c => categories db !! c with
    | None => (db, Json 400 false "Invalid category ID" NoData)
    | Some _ =>
        if tagsInvalid db body
        then (db, Json 400 false "One or more tag IDs are invalid" NoData)
        else
          (* req.body.author = req.user._id *)
          let body :=
            Post.mkBody (Post.b_title body) (Post.b_slug body)
              (Post.b_content body) (Post.b_excerpt body)
              (Post.b_featuredImage body) (Some (_id user))
              (Post.b_category body) (Post.b_tags body) (Post.b_status body)
              (Post.b_publishedAt body) (Post.b_views body)
              (Post.b_likes body) (Post.b_readTime body)
              (Post.b_isActive body) in
          match Post.create now newId body (posts db) with
          | inl e => (db, Next e)
          | inr (coll, _) =>
              (setPosts db coll,
               Json 201 true "Post created successfully"
                    (PostDoc (coll !! newId)))
          end
    end.

(** The ownership and role test of [updatePost], negated: [true] lets the
    caller through. *)
Definition mayUpdatePost (user : User) (post : Post.t) : bool :=
  negb (negb (String.eqb (Post.author post) (_id user))
        && negb (String.eqb (role user) "admin")
        && negb (String.eqb (role user) "editor")).

(** The ownership and role test of [deletePost], negated. *)
Definition mayDeletePost (user : User) (post : Post.t) : bool :=
  negb (negb (String.eqb (Post.author post) (_id user))
        && negb (String.eqb (role user) "admin")).

(** [PUT /api/posts/:id]. *)
Definition updatePost (db : DB) (errors : list string) (user : User)
    (id : ObjectId) (body : Post.body) : DB * Response :=
  if negb (isEmpty errors) then (db, validationErrors errors)
  else
    match posts db !! id with
    | None => (db, Json 404 false ("Post not found with id of " +:+ id) NoData)
    | Some post =>
        if negb (mayUpdatePost user post)
        then (db, Json 403 false "Not authorized to update this post" NoData)
        else if truthy (Post.b_category body)
                && negb (bool_decide (is_Some
                     (Post.b_category body ≫= fun c => categories db !! c)))
        then (db, Json 400 false "Invalid category ID" NoData)
        else if tagsInvalid db body
        then (db, Json 400 false "One or more tag IDs are invalid" NoData)
        else
          match Post.findByIdAndUpdate id body (posts db) with
          | inl e => (db, Next e)
          | inr (coll, doc) =>
              (setPosts db coll,
               Json 200 true "Post updated successfully" (PostDoc doc))
          end
    end.

(** [DELETE /api/posts/:id]. *)
Definition deletePost (db : DB) (user : User) (id : ObjectId)
    : DB * Response :=
  match posts db !! id with
  | None => (db, Json 404 false ("Post not found with id of " +:+ id) NoData)
  | Some post =>
      if negb (mayDeletePost user post)
      then (db, Json 403 false "Not authorized to delete this post" NoData)
      else (setPosts db (delete id (posts db)),
            Json 200 true "Post deleted successfully" NoData)
  end.

(** [PUT /api/posts/:id/like]. *)
Definition toggleLikePost (now : Date) (db : DB) (user : User)
    (id : ObjectId) : DB * Response :=
  match posts db !! id with
  | None => (db, Json 404 false ("Post not found with id of " +:+ id) NoData)
  | Some p =>
      let isLiked := arr_includes (Post.likes p) (_id user) in
      let likes' :=
        if isLiked then arr_pull (Post.likes p) (_id user)
        else arr_push (Post.likes p) (_id user) in
      let post :=
        Post.mk (Post.title p) (Post.slug p) (Post.content p) (Post.excerpt p)
                (Post.featuredImage p) (Post.author p) (Post.category p)
                (Post.tags p) (Post.status p) (Post.publishedAt p)
                (Post.views p) likes' (Post.readTime p) (Post.isActive p) in
      match Post.save now false ["likes"] id post (posts db) with
      | inl e => (db, Next e)
      | inr (coll, post) =>
          (setPosts db coll,
           Json 200 true
                (if isLiked then "Post unliked successfully"
                 else "Post liked successfully")
                (LikeData (length (Post.likes post)) (negb isLiked)))
      end
  end.

(** ** controllers/categoryController.js and controllers/tagController.js *)

(** [Post.countDocuments({ category: id })]. *)
Definition postsUsingCategory (db : DB) (id : ObjectId) : nat :=
  countDocuments (fun p => String.eqb (Post.category p) id) (posts db).

(** [Post.countDocuments({ tags: id })]: a query on an array path matches
    the documents whose array holds the value. *)
Definition postsUsingTag (db : DB) (id : ObjectId) : nat :=
  countDocuments (fun p => existsb (String.eqb id) (Post.tags p)) (posts db).

(** [DELETE /api/categories/:id]; the route admits admins only. *)
Definition deleteCategory (db : DB) (id : ObjectId) : DB * Response :=
  match categories db !! id with
  | None =>
      (db, Json 404 false ("Category not found with id of " +:+ id) NoData)
  | Some _ =>
      let n := postsUsingCategory db id in
      if Nat.ltb 0 n
      then (db, Json 400 false
                  ("Cannot delete category. It is being used by "
                   +:+ pretty n +:+ " post(s)") NoData)
      else (setCategories db (delete id (categories db)),
            Json 200 true "Category deleted successfully" NoData)
  end.

(** [DELETE /api/tags/:id]; the route admits admins only. *)
Definition deleteTag (db : DB) (id : ObjectId) : DB * Response :=
  match tags db !! id with
  | None => (db, Json 404 false ("Tag not found with id of " +:+ id) NoData)
  | Some _ =>
      let n := postsUsingTag db id in
      if Nat.ltb 0 n
      then (db, Json 400 false
                  ("Cannot delete tag. It is being used by "
                   +:+ pretty n +:+ " post(s)") NoData)
      else (setTags db (delete id (tags db)),
            Json 200 true "Tag deleted successfully" NoData)
  end.

(** ** The comment routes as one transition function *)

(** A request to one of the routes that write to the comment collection,
    with what the middleware in front of the handler supplies. *)
Inductive CommentRequest :=
| CreateComment (now : Date) (newId : ObjectId) (errors : list string)
    (user : User) (postId : ObjectId) (body : Comment.body)
| UpdateComment (errors : list string) (user : User) (id : ObjectId)
    (body : Comment.body)
| DeleteComment (user : User) (id : ObjectId)
| ToggleLikeComment (now : Date) (user : User) (id : ObjectId)
| ModerateComment (now : Date) (id : ObjectId) (status : option string).

Definition handleComment (db : DB) (req : CommentRequest) : DB * Response :=
  match req with
  | CreateComment now newId errors user postId body =>
      createComment now newId db errors user postId body
  | UpdateComment errors user id body => updateComment db errors user id body
  | DeleteComment user id => deleteComment db user id
  | ToggleLikeComment now user id => toggleLikeComment now db user id
  | ModerateComment now id status => moderateComment now db id status
  end.

(** ** Read routes and the user routes *)

(** The response of a route whose [data] is a [D]; [message] is empty when
    the body has none. *)
Inductive Answer (D : Type) :=
| Reply (code : nat) (success : bool) (message : string) (data : option D)
| Thrown (err : MongooseError).

Arguments Reply {D} code success message data.
Arguments Thrown {D} err.

(** [!req.user || (req.user.role !== "admin" && req.user.role !== "editor")];
    [req.user] is undefined for a request without a token. *)
Definition isPublicAccess (user : option User) : bool :=
  match user with
  | None => true
  | Some u =>
      negb (String.eqb (role u) "admin") && negb (String.eqb (role u) "editor")
  end.

(** [$inc: { views: 1 }]. *)
Definition incViews (p : Post.t) : Post.t :=
  Post.mk (Post.title p) (Post.slug p) (Post.content p) (Post.excerpt p)
          (Post.featuredImage p) (Post.author p) (Post.category p)
          (Post.tags p) (Post.status p) (Post.publishedAt p)
          (Post.views p + 1)%Z (Post.likes p) (Post.readTime p)
          (Post.isActive p).

(** [GET /api/posts/:id].  The document in the response is the one read
    before the view is counted. *)
Definition getPost (db : DB) (user : option User) (id : ObjectId)
    : DB * Response :=
  let post :=
    match posts db !! id with
    | Some p =>
        if isPublicAccess user
        then (if String.eqb (Post.status p) "published" && Post.isActive p
              then Some p else None)
        else Some p
    | None => None
    end in
  match post with
  | None => (db, Json 404 false ("Post not found with id of " +:+ id) NoData)
  | Some p =>
      let db :=
        if isPublicAccess user
        then setPosts db (alter incViews id (posts db))
        else db in
      (db, Json 200 true "" (PostDoc (Some p)))
  end.

(** [populate({ path: "replies", match: { isActive: true, status:
    "approved" } })]: the stored replies that pass the match, in the order of
    the array. *)
Definition populateReplies (coll : gmap string Comment.t)
    (replies : list ObjectId) : list Comment.t :=
  omap (fun r =>
          match coll !! r with
          | Some d =>
              if Comment.isActive d && String.eqb (Comment.status d) "approved"
              then Some d else None
          | None => None
          end) replies.

(** [GET /api/comments/:id]: the comment and its populated replies. *)
Definition getComment (db : DB) (id : ObjectId)
    : Answer (Comment.t * list Comment.t) :=
  match comments db !! id with
  | None => Reply 404 false ("Comment not found with id of " +:+ id) None
  | Some c =>
      Reply 200 true "" (Some (c, populateReplies (comments db)
                                                  (Comment.replies c)))
  end.

(** [Post.countDocuments({ category: id, status: "published", isActive:
    true })] and the same on [tags]. *)
Definition publishedInCategory (db : DB) (id : ObjectId) : nat :=
  countDocuments
    (fun p => String.eqb (Post.category p) id
              && String.eqb (Post.status p) "published" && Post.isActive p)
    (posts db).

Definition publishedWithTag (db : DB) (id : ObjectId) : nat :=
  countDocuments
    (fun p => existsb (String.eqb id) (Post.tags p)
              && String.eqb (Post.status p) "published" && Post.isActive p)
    (posts db).

(** [GET /api/categories/:id]: the category with its [postCount]. *)
Definition getCategory (db : DB) (id : ObjectId) : Answer (Category.t * nat) :=
  match categories db !! id with
  | None => Reply 404 false ("Category not found with id of " +:+ id) None
  | Some c => Reply 200 true "" (Some (c, publishedInCategory db id))
  end.

(** [GET /api/tags/:id]: the tag with its [postCount]. *)
Definition getTag (db : DB) (id : ObjectId) : Answer (Tag.t * nat) :=
  match tags db !! id with
  | None => Reply 404 false ("Tag not found with id of " +:+ id) None
  | Some t => Reply 200 true "" (Some (t, publishedWithTag db id))
  end.

(** ** models/User.js and controllers/userController.js *)

Module Account.

Record t := mk {
  name : string;
  email : string;
  password : string;
  role : string;
  avatar : string;
  bio : option string;
  isActive : bool
}.

Definition roleEnum : list string := ["user"; "editor"; "admin"].

Section Validation.

(** The [match] validator of [email] tests a regular expression; the test
    is a parameter here. *)
Variable emailMatches : string -> bool.

(** The validators that run when a document read by [findById] is saved:
    [password] is declared [select: false], so it is neither loaded nor
    validated. *)
Definition validate (u : t) : option MongooseError :=
  if String.eqb (name u) "" || Nat.ltb 50 (jsLength (name u))
  then Some (ValidationError "name")
  else if String.eqb (email u) "" || negb (emailMatches (email u))
  then Some (ValidationError "email")
  else if negb (existsb (String.eqb (role u)) roleEnum)
  then Some (ValidationError "role")
  else if Nat.ltb 500 (jsLength (default "" (bio u)))
  then Some (ValidationError "bio")
  else None.

(** [user.save()] on a stored user whose password is not modified: the
    [pre("save")] hook returns at once ([!this.isModified("password")]), so
    nothing is hashed. *)
Definition save (id : ObjectId) (doc : t) (coll : gmap string t)
    : MongooseError + (gmap string t * t) :=
  match validate doc with
  | Some e => inl e
  | None => inr (<[id := doc]> coll, doc)
  end.

(** [DELETE /api/users/:id]; the router admits admins only. *)
Definition deleteUser (coll : gmap string t) (user : User) (id : ObjectId)
    : gmap string t * Answer t :=
  match coll !! id with
  | None => (coll, Reply 404 false ("User not found with id of " +:+ id) None)
  | Some _ =>
      (* user._id.toString() === req.user._id.toString() *)
      if String.eqb id (_id user)
      then (coll, Reply 400 false "Admin cannot delete their own account" None)
      else (delete id coll, Reply 200 true "User deleted successfully" None)
  end.

(** [PUT /api/users/:id/toggle-status]; the router admits admins only.
    ([toJSON] takes the password out of the data that is sent; the data
    here is the document.) *)
Definition toggleUserStatus (coll : gmap string t) (user : User)
    (id : ObjectId) : gmap string t * Answer t :=
  match coll !! id with
  | None => (coll, Reply 404 false ("User not found with id of " +:+ id) None)
  | Some u =>
      if String.eqb id (_id user)
      then (coll,
            Reply 400 false "Admin cannot deactivate their own account" None)
      else
        let u := mk (name u) (email u) (password u) (role u) (avatar u)
                    (bio u) (negb (isActive u)) in
        match save id u coll with
        | inl e => (coll, Thrown e)
        | inr (coll, u) =>
            (coll,
             Reply 200 true
                   ("User " +:+ (if isActive u then "activated"
                                 else "deactivated") +:+ " successfully")
                   (Some u))
        end
  end.

End Validation.

End Account.

(** ** The slug hooks of models/Category.js and models/Tag.js *)

(** [categorySchema.pre("save", ...)] and [tagSchema.pre("save", ...)]: the
    slug is made from the name on every save, with the replacements of the
    post hook and no suffix. *)
Definition categoryPreSave (this : Category.t) : Category.t :=
  if negb (String.eqb (Category.name this) "")
  then Category.mk (Category.name this)
                   (Some (Post.slugify (Category.name this)))
                   (Category.description this) (Category.color this)
                   (Category.isActive this)
  else this.

Definition tagPreSave (this : Tag.t) : Tag.t :=
  if negb (String.eqb (Tag.name this) "")
  then Tag.mk (Tag.name this) (Some (Post.slugify (Tag.name this)))
              (Tag.color this) (Tag.isActive this)
  else this.

(** Text within ASCII: every byte is below 128.  On such text the
    byte-wise [lowerChar], [isAlnum] and [isSpace] are JavaScript's
    [toLowerCase], [[a-zA-Z0-9]] and [\s]. *)
Fixpoint isAscii (s : string) : bool :=
  match s with
  | EmptyString => true
  | String c s' => Nat.ltb (nat_of_ascii c) 128 && isAscii s'
  end.

(** The shape of a slug: lower-case letters and digits, with single dashes
    between them only.  [prevDash] tells that a dash may not come next. *)
Definition isLowerAlnum (c : ascii) : bool :=
  Post.isAlnum c && Ascii.eqb (Post.lowerChar c) c.

Fixpoint dashesApart (prevDash : bool) (s : string) : bool :=
  match s with
  | EmptyString => true
  | String c s' =>
      if Ascii.eqb c Post.dash then negb prevDash && dashesApart true s'
      else isLowerAlnum c && dashesApart false s'
  end.

Fixpoint endsWithDash (s : string) : bool :=
  match s with
  | EmptyString => false
  | String c EmptyString => Ascii.eqb c Post.dash
  | String _ s' => endsWithDash s'
  end.

Definition isSlug (s : string) : bool :=
  dashesApart true s && negb (endsWithDash s).

(** ** Sample data *)

Definition alice : User := mkUser "a00000000000000000000001" "user".
Definition bob : User := mkUser "a00000000000000000000002" "user".
Definition erin : User := mkUser "a00000000000000000000003" "editor".
Definition root : User := mkUser "a00000000000000000000004" "admin".

Definition newsId : ObjectId := "c00000000000000000000001".
Definition rocqId : ObjectId := "d00000000000000000000001".
Definition helloId : ObjectId := "b00000000000000000000001".
Definition firstId : ObjectId := "e00000000000000000000001".
Definition secondId : ObjectId := "e00000000000000000000002".

(** One category and one tag, nothing else. *)
Definition seed : DB :=
  mkDB ∅ ∅
       {[ newsId := Category.mk "News" (Some "news") None "#3B82F6" true ]}
       {[ rocqId := Tag.mk "Rocq" (Some "rocq") "#10B981" true ]}.

Definition helloBody (status : option string) : Post.body :=
  Post.mkBody (Some "Hello World") None
    (Some "A first post whose content is comfortably longer than fifty characters.")
    None None None (Some newsId) (Some [rocqId]) status None None None None
    None.

(** A body that sets [status] only, and one that sets [publishedAt] to
    null only. *)
Definition statusBody (status : string) : Post.body :=
  Post.mkBody None None None None None None None None (Some status) None None
    None None None.

Definition nullPublishedAtBody : Post.body :=
  Post.mkBody None None None None None None None None None (Some None) None
    None None None.

(** The editor creates the post as a draft, or published. *)
Definition dbDraft : DB :=
  (createPost 1000 helloId seed [] erin (helloBody None)).1.

Definition dbPublished : DB :=
  (createPost 1000 helloId seed [] erin (helloBody (Some "published"))).1.

Definition contentBody (content : string) : Comment.body :=
  Comment.mkBody (Some content) None None None None None None None None None.

Definition contentStatusBody (content status : string) : Comment.body :=
  Comment.mkBody (Some content) None None None None None (Some status) None
    None None.

Definition replyBody (content : string) (parent : ObjectId) : Comment.body :=
  Comment.mkBody (Some content) None None (Some parent) None None None None
    None None.

Definition likedBody (content : string) (likes : list ObjectId)
    : Comment.body :=
  Comment.mkBody (Some content) None None None None (Some likes) None None
    None None.

(** Alice comments on the published post. *)
Definition dbCommented : DB :=
  (createComment 2000 firstId dbPublished [] alice helloId
                 (contentBody "First!")).1.

(** Alice's comment is created pending (the body names the status), and an
    editor approves it. *)
Definition dbPending : DB :=
  (createComment 2000 firstId dbPublished [] alice helloId
                 (contentStatusBody "First!" "pending")).1.

Definition dbApproved : DB :=
  (moderateComment 3000 dbPending firstId (Some "approved")).1.

(** Alice's comment arrives with bob twice in its [likes]: the body is
    spread into the new document and names the path. *)
Definition dbDoubleLiked : DB :=
  (createComment 2000 firstId dbPublished [] alice helloId
                 (likedBody "First!" [_id bob; _id bob])).1.

(** The [likes] array after the if/else of the toggle-like handlers. *)
Definition toggled (likes : list ObjectId) (uid : ObjectId) : list ObjectId :=
  if arr_includes likes uid then arr_pull likes uid else arr_push likes uid.

(** Alice, then bob, like the comment and the post. *)
Definition dbLiked : DB :=
  (toggleLikePost 2400
     (toggleLikePost 2300
        (toggleLikeComment 2200
           (toggleLikeComment 2100 dbCommented alice firstId).1
           bob firstId).1
        alice helloId).1
     bob helloId).1.

(** A thread on the published post: alice's comment, bob's reply to it,
    alice's reply to bob's reply. *)
Definition thirdId : ObjectId := "e00000000000000000000003".

Definition dbThread : DB :=
  (createComment 2200 thirdId
     (createComment 2100 secondId dbCommented [] bob helloId
                    (replyBody "Me too" firstId)).1
     [] alice helloId (replyBody "Thanks" secondId)).1.

(** Two accounts, and an email test that accepts their addresses. *)
Definition sampleEmails (s : string) : bool :=
  String.eqb s "root@example.com" || String.eqb s "bob@example.com".

Definition sampleUsers : gmap string Account.t :=
  {[ _id root := Account.mk "Root" "root@example.com" "$2a$12$hash" "admin"
                            "" None true;
     _id bob := Account.mk "Bob" "bob@example.com" "$2a$12$hash" "user" ""
                           None true ]}.

(** ** Facts about the primitives *)

Lemma includes_true l s :
  includes l (Some s) = true <-> In s l.
Proof.
  unfold includes. rewrite existsb_exists. split.
  - intros (x & Hx & Heq). apply String.eqb_eq in Heq. now subst.
  - intros Hin. exists s. split; [assumption | apply String.eqb_refl].
Qed.

Lemma isAdminOrEditor_true user :
  isAdminOrEditor user = true <-> role user = "admin" \/ role user = "editor".
Proof.
  unfold isAdminOrEditor.
  rewrite orb_true_iff, !String.eqb_eq. reflexivity.
Qed.

(** ** The shape of an update-comment call *)

Section UpdateComment.

Variables (db : DB) (errors : list string) (user : User) (id : ObjectId).
Variables (body : Comment.body) (c : Comment.t).
Hypothesis Hc : comments db !! id = Some c.

(** Either nothing is written and the call fails, or exactly the update
    document is applied to the comment. *)
Lemma updateComment_cases :
  (updateComment db errors user id body).1 = db
  /\ succeeded (updateComment db errors user id body).2 = false
  \/ updateComment db errors user id body
     = (setComments db (<[id := Comment.applyUpdate (updateDataOf user body) c]>
                          (comments db)),
        Json 200 true "Comment updated successfully"
             (CommentDoc (Some (Comment.applyUpdate (updateDataOf user body) c)))).
Proof using Hc.
  unfold updateComment.
  destruct (isEmpty errors); simpl; [| by left].
  rewrite Hc.
  destruct (negb (String.eqb (Comment.author c) (_id user))
            && negb (String.eqb (role user) "admin")
            && negb (String.eqb (role user) "editor")); [by left |].
  unfold Comment.findByIdAndUpdate.
  destruct (from_option Comment.validateContent None _); [by left |].
  destruct (from_option Comment.validateStatus None _); [by left |].
  rewrite Hc. by right.
Qed.

(** The comment is still stored afterwards, and it is the old one or the
    old one with the update document applied. *)
Lemma updateComment_lookup :
  comments (updateComment db errors user id body).1 !! id = Some c
  \/ comments (updateComment db errors user id body).1 !! id
     = Some (Comment.applyUpdate (updateDataOf user body) c).
Proof using Hc.
  destruct updateComment_cases as [[-> _] | ->]; [by left | right].
  simpl. apply lookup_insert_eq.
Qed.

Lemma updateComment_others j :
  j <> id ->
  comments (updateComment db errors user id body).1 !! j = comments db !! j.
Proof using Hc.
  intros Hne.
  destruct updateComment_cases as [[-> _] | ->]; [done |].
  simpl. by rewrite lookup_insert_ne.
Qed.

End UpdateComment.

(** ** Moderation *)

(** C7. A moderation request whose status is neither "approved" nor
    "rejected" (an absent status included) is answered with 400 and writes
    nothing: the database after the call is the database before it. *)
Theorem C7_moderateComment_rejects_other_status
    (now : Date) (db : DB) (id : ObjectId) (status : option string) :
  status <> Some "approved" -> status <> Some "rejected" ->
  moderateComment now db id status
  = (db, Json 400 false "Status must be either approved or rejected" NoData).
Proof.
  intros Ha Hr. unfold moderateComment.
  destruct (includes ["approved"; "rejected"] status) eqn:Hin; [| done].
  destruct status as [s |]; [| done].
  apply includes_true in Hin. simpl in Hin.
  destruct Hin as [<- | [<- | []]]; congruence.
Qed.

(** Moderating alice's comment as "spam": 400, the database is the same. *)
Lemma C7_spam_is_refused :
  moderateComment 3000 dbCommented firstId (Some "spam")
  = (dbCommented,
     Json 400 false "Status must be either approved or rejected" NoData).
Proof.
  apply (C7_moderateComment_rejects_other_status
           3000%Z dbCommented firstId (Some "spam")); discriminate.
Defined.

(** ** Update-comment: what it leaves alone *)

(** C5. The edited mark that a content update should leave is not set:
    [updateComment] writes through [findByIdAndUpdate], on which the
    [pre("save")] hook does not run, so after every update-comment call the
    comment's [isEdited] flag and [editedAt] stamp are what they were
    before, also when the content has changed. *)
Theorem C5_updateComment_never_marks_edited
    (db : DB) (errors : list string) (user : User) (id : ObjectId)
    (body : Comment.body) (c : Comment.t) :
  comments db !! id = Some c ->
  exists c',
    comments (updateComment db errors user id body).1 !! id = Some c'
    /\ Comment.isEdited c' = Comment.isEdited c
    /\ Comment.editedAt c' = Comment.editedAt c.
Proof.
  intros Hc.
  destruct (updateComment_lookup db errors user id body c Hc) as [H | H];
    rewrite H; eexists; (split; [reflexivity |]); by split.
Qed.

(** Alice rewrites her own comment: the call succeeds, the content is the
    new one, and the comment still counts as never edited. *)
Lemma C5_alice_edit_goes_unmarked :
  succeeded (updateComment dbCommented [] alice firstId
                           (contentBody "Second thoughts")).2 = true
  /\ exists c',
      comments (updateComment dbCommented [] alice firstId
                              (contentBody "Second thoughts")).1 !! firstId
      = Some c'
      /\ Comment.content c' = "Second thoughts"
      /\ Comment.isEdited c' = false
      /\ Comment.editedAt c' = None.
Proof.
  split; [vm_compute; reflexivity |].
  destruct (C5_updateComment_never_marks_edited
              dbCommented [] alice firstId (contentBody "Second thoughts")
              (Comment.mk "First!" (_id alice) helloId None [] [] "approved"
                          false None true))
    as (c' & Hc' & Hed & Hat); [vm_compute; reflexivity |].
  exists c'. split; [exact Hc' |].
  split; [| split; assumption].
  assert (Hv : comments (updateComment dbCommented [] alice firstId
                           (contentBody "Second thoughts")).1 !! firstId
               = Some (Comment.mk "Second thoughts" (_id alice) helloId None
                                  [] [] "approved" false None true))
    by (vm_compute; reflexivity).
  rewrite Hv in Hc'. injection Hc' as <-. reflexivity.
Defined.

(** C10. Whatever the request body contains, an update-comment call leaves
    the comment stored, with its author, post, parentComment, replies, likes
    and isActive (and isEdited, editedAt) unchanged; its status is unchanged
    too unless the caller is an admin or editor; every other comment and
    every other collection is untouched. *)
Theorem C10_updateComment_frame
    (db : DB) (errors : list string) (user : User) (id : ObjectId)
    (body : Comment.body) (c : Comment.t) :
  comments db !! id = Some c ->
  (exists c',
      comments (updateComment db errors user id body).1 !! id = Some c'
      /\ Comment.author c' = Comment.author c
      /\ Comment.post c' = Comment.post c
      /\ Comment.parentComment c' = Comment.parentComment c
      /\ Comment.replies c' = Comment.replies c
      /\ Comment.likes c' = Comment.likes c
      /\ Comment.isActive c' = Comment.isActive c
      /\ Comment.isEdited c' = Comment.isEdited c
      /\ Comment.editedAt c' = Comment.editedAt c
      /\ (isAdminOrEditor user = false ->
          Comment.status c' = Comment.status c))
  /\ (forall j, j <> id ->
        comments (updateComment db errors user id body).1 !! j
        = comments db !! j)
  /\ posts (updateComment db errors user id body).1 = posts db
  /\ categories (updateComment db errors user id body).1 = categories db
  /\ tags (updateComment db errors user id body).1 = tags db.
Proof.
  intros Hc. split; [| split].
  - destruct (updateComment_lookup db errors user id body c Hc) as [H | H];
      rewrite H; eexists; (split; [reflexivity |]); repeat split; try done.
    intros Hrole. unfold updateDataOf. rewrite Hrole. reflexivity.
  - intros j Hj. by apply updateComment_others with (c := c).
  - destruct (updateComment_cases db errors user id body c Hc)
      as [[-> _] | ->]; done.
Qed.

(** A body that names every path of the schema, sent by the author (a plain
    user): only the content moves. *)
Lemma C10_alice_cannot_reassign :
  let body :=
    Comment.mkBody (Some "Edited") (Some (_id bob)) (Some secondId)
                   (Some secondId) (Some [secondId]) (Some [_id bob])
                   (Some "rejected") (Some true) (Some 7%Z) (Some false) in
  comments (updateComment dbCommented [] alice firstId body).1 !! firstId
  = Some (Comment.mk "Edited" (_id alice) helloId None [] [] "approved" false
                     None true)
  /\ exists c',
      comments (updateComment dbCommented [] alice firstId body).1 !! firstId
      = Some c'
      /\ Comment.author c' = _id alice
      /\ Comment.likes c' = []
      /\ Comment.status c' = "approved".
Proof.
  intros body. split; [vm_compute; reflexivity |].
  destruct (C10_updateComment_frame
              dbCommented [] alice firstId body
              (Comment.mk "First!" (_id alice) helloId None [] [] "approved"
                          false None true))
    as [(c' & Hc' & Hau & _ & _ & _ & Hli & _ & _ & _ & Hst) _];
    [vm_compute; reflexivity |].
  exists c'. split; [exact Hc' |].
  split; [exact Hau |]. split; [exact Hli |].
  apply Hst. vm_compute; reflexivity.
Defined.

(** ** The moderation status under the comment routes *)

(** Appending to [replies] is the only thing the save hook does to a stored
    comment. *)
Lemma pre_save_lookup now isNew modified id this coll j c :
  coll !! j = Some c ->
  exists c',
    (Comment.pre_save now isNew modified id this coll).1 !! j = Some c'
    /\ Comment.status c' = Comment.status c
    /\ Comment.likes c' = Comment.likes c.
Proof.
  intros Hj. unfold Comment.pre_save. simpl.
  destruct (Comment.parentComment this) as [p |]; [| by exists c].
  destruct isNew; [| by exists c].
  destruct (decide (p = j)) as [-> | Hne].
  - rewrite lookup_alter_eq, Hj. simpl. by eexists.
  - rewrite lookup_alter_ne by done. by exists c.
Qed.

(** On a stored document whose content is not modified the hook does
    nothing. *)
Lemma pre_save_stored now modified id this coll :
  existsb (String.eqb "content") modified = false ->
  Comment.pre_save now false modified id this coll = (coll, this).
Proof.
  intros Hm. unfold Comment.pre_save. rewrite Hm. simpl.
  by destruct (Comment.parentComment this).
Qed.

Lemma createComment_keeps_status now newId db errors user postId body id c :
  comments db !! id = Some c ->
  exists c',
    comments (createComment now newId db errors user postId body).1 !! id
    = Some c'
    /\ Comment.status c' = Comment.status c.
Proof.
  intros Hc. unfold createComment.
  destruct (isEmpty errors); simpl; [| by exists c].
  destruct (match posts db !! postId with Some _ => _ | None => _ end);
    [| by exists c].
  match goal with |- context [if ?b then (db, _) else _] => destruct b end;
    [by exists c |].
  unfold Comment.create, Comment.withAuthorPost. simpl.
  destruct (Comment.b_content body) as [co |]; [| by exists c].
  unfold Comment.save.
  destruct (Comment.validate _); [by exists c |].
  match goal with
  | |- context [Comment.pre_save ?a ?b ?m ?i ?t ?co] =>
      destruct (pre_save_lookup a b m i t co id c Hc) as (c' & Hc' & Hs & _);
      destruct (Comment.pre_save a b m i t co) as [coll doc]
  end.
  simpl in *. case_bool_decide as Hnew; simpl; [by exists c' |].
  exists c'. split; [| exact Hs].
  rewrite lookup_insert_ne; [exact Hc' |].
  intros ->. apply Hnew. by exists c'.
Qed.

Lemma deleteComment_keeps_doc db user id j c' :
  comments (deleteComment db user id).1 !! j = Some c' ->
  comments db !! j = Some c'.
Proof.
  unfold deleteComment.
  destruct (comments db !! id) as [c |]; [| done].
  destruct (negb _ && negb _); [done |].
  simpl. intros H.
  apply lookup_delete_Some in H as [_ H].
  by apply map_lookup_filter_Some in H as [H _].
Qed.

Lemma toggleLikeComment_keeps_status now db user id j c :
  comments db !! j = Some c ->
  exists c',
    comments (toggleLikeComment now db user id).1 !! j = Some c'
    /\ Comment.status c' = Comment.status c.
Proof.
  intros Hc. unfold toggleLikeComment.
  destruct (comments db !! id) as [d |] eqn:Hd; [| by exists c].
  unfold Comment.save.
  destruct (Comment.validate _); [by exists c |].
  rewrite pre_save_stored by reflexivity.
  simpl. destruct (decide (id = j)) as [<- | Hne].
  - rewrite lookup_insert_eq. eexists. split; [reflexivity |].
    simpl. congruence.
  - rewrite lookup_insert_ne by done. by exists c.
Qed.

Lemma moderateComment_status now db id status j c c' :
  comments db !! j = Some c ->
  comments (moderateComment now db id status).1 !! j = Some c' ->
  Comment.status c' = Comment.status c
  \/ Comment.status c' = "approved" \/ Comment.status c' = "rejected".
Proof.
  intros Hc. unfold moderateComment.
  destruct (includes _ status) eqn:Hin; simpl;
    [| simpl; intros; left; congruence].
  destruct (comments db !! id) as [d |] eqn:Hd; [| simpl; intros; left; congruence].
  unfold Comment.save.
  destruct (Comment.validate _); [simpl; intros; left; congruence |].
  rewrite pre_save_stored by reflexivity.
  simpl. destruct (decide (id = j)) as [<- | Hne].
  - rewrite lookup_insert_eq. intros [= <-]. simpl. right.
    destruct status as [s |]; [| done].
    apply includes_true in Hin. simpl in Hin. simpl. intuition.
  - rewrite lookup_insert_ne by done. simpl; intros; left; congruence.
Qed.

(** C3, as stated, fails: a comment that was created pending and then
    approved is pending again after an admin's update-comment call whose
    body carries [status: "pending"]. *)
Lemma C3_pending_reentered_by_update :
  Comment.status <$> comments dbPending !! firstId = Some "pending"
  /\ Comment.status <$> comments dbApproved !! firstId = Some "approved"
  /\ Comment.status <$>
       comments (handleComment dbApproved
                   (UpdateComment [] root firstId
                      (contentStatusBody "First!" "pending"))).1 !! firstId
     = Some "pending".
Proof. vm_compute. repeat split; reflexivity. Qed.

(** C3, amended. Under the comment routes (create, update, delete,
    toggle-like, moderate) a stored comment whose status is not pending
    becomes pending only by an update-comment call on it, made by an admin
    or editor, whose body carries [status: "pending"].  So moderation never
    assigns pending, and a plain user's requests never bring it back. *)
Theorem C3_pending_reentered_only_by_privileged_update
    (db : DB) (req : CommentRequest) (id : ObjectId) (c c' : Comment.t) :
  comments db !! id = Some c ->
  Comment.status c <> "pending" ->
  comments (handleComment db req).1 !! id = Some c' ->
  Comment.status c' = "pending" ->
  exists errors user body,
    req = UpdateComment errors user id body
    /\ isAdminOrEditor user = true
    /\ Comment.b_status body = Some "pending".
Proof.
  intros Hc Hnp Hc' Hp.
  destruct req as [now newId errors user postId body | errors user id0 body
                  | user id0 | now user id0 | now id0 status]; simpl in Hc'.
  - destruct (createComment_keeps_status now newId db errors user postId body
                id c Hc) as (d & Hd & Hs).
    congruence.
  - destruct (decide (id0 = id)) as [-> | Hne].
    + destruct (updateComment_lookup db errors user id body c Hc) as [H | H];
        rewrite H in Hc'; injection Hc' as <-; [congruence |].
      exists errors, user, body. split; [reflexivity |].
      unfold updateDataOf in Hp. simpl in Hp.
      destruct (isAdminOrEditor user); simpl in Hp; [| congruence].
      split; [reflexivity |].
      destruct (truthy (Comment.b_status body)); simpl in Hp; [| congruence].
      destruct (Comment.b_status body); simpl in Hp; congruence.
    + destruct (comments db !! id0) as [c0 |] eqn:Hc0.
      * rewrite (updateComment_others db errors user id0 body c0 Hc0 id) in Hc'
          by done.
        congruence.
      * unfold updateComment in Hc'. rewrite Hc0 in Hc'.
        destruct (isEmpty errors); simpl in Hc'; congruence.
  - apply deleteComment_keeps_doc in Hc'. congruence.
  - destruct (toggleLikeComment_keeps_status now db user id0 id c Hc)
      as (d & Hd & Hs).
    congruence.
  - destruct (moderateComment_status now db id0 status id c c' Hc Hc')
      as [H | [H | H]]; congruence.
Qed.

Lemma C3_root_update_is_the_way_back :
  exists errors user body,
    UpdateComment [] root firstId (contentStatusBody "First!" "pending")
    = UpdateComment errors user firstId body
    /\ isAdminOrEditor user = true
    /\ Comment.b_status body = Some "pending".
Proof.
  apply (C3_pending_reentered_only_by_privileged_update
           dbApproved
           (UpdateComment [] root firstId
                          (contentStatusBody "First!" "pending"))
           firstId
           (Comment.mk "First!" (_id alice) helloId None [] [] "approved"
                       false None true)
           (Comment.mk "First!" (_id alice) helloId None [] [] "pending"
                       false None true)).
  - vm_compute; reflexivity.
  - discriminate.
  - vm_compute; reflexivity.
  - reflexivity.
Defined.

(** ** Authorization on posts *)

Lemma mayUpdatePost_true user post :
  mayUpdatePost user post = true
  <-> Post.author post = _id user \/ role user = "admin"
      \/ role user = "editor".
Proof.
  unfold mayUpdatePost.
  rewrite negb_true_iff, !andb_false_iff, !negb_false_iff, !String.eqb_eq.
  tauto.
Qed.

Lemma mayDeletePost_true user post :
  mayDeletePost user post = true
  <-> Post.author post = _id user \/ role user = "admin".
Proof.
  unfold mayDeletePost.
  rewrite negb_true_iff, andb_false_iff, !negb_false_iff, !String.eqb_eq.
  tauto.
Qed.

Lemma updatePost_403 db user id body post :
  posts db !! id = Some post ->
  statusCode (updatePost db [] user id body).2 = Some 403
  <-> mayUpdatePost user post = false.
Proof.
  intros Hp. unfold updatePost. simpl. rewrite Hp.
  destruct (mayUpdatePost user post); simpl; [| done].
  split; [| done].
  destruct (truthy _ && _); [done |].
  destruct (tagsInvalid db body); [done |].
  by destruct (Post.findByIdAndUpdate id body (posts db)) as [e | [coll doc]].
Qed.

(** C1. For an existing post and a request that passed validation,
    update-on-post is refused with 403 exactly when the caller is neither
    the post's author nor an admin nor an editor; delete-on-post is refused
    with 403 exactly when the caller is neither the author nor an admin, and
    goes through (the post is removed) otherwise; in particular an editor
    who is not the author is refused. *)
Theorem C1_post_authorization
    (db : DB) (user : User) (id : ObjectId) (body : Post.body)
    (errors : list string) (post : Post.t) :
  posts db !! id = Some post ->
  errors = [] ->
  (statusCode (updatePost db errors user id body).2 = Some 403
   <-> ~ (Post.author post = _id user \/ role user = "admin"
          \/ role user = "editor"))
  /\ (statusCode (deletePost db user id).2 = Some 403
      <-> ~ (Post.author post = _id user \/ role user = "admin"))
  /\ (Post.author post = _id user \/ role user = "admin" ->
      deletePost db user id
      = (setPosts db (delete id (posts db)),
         Json 200 true "Post deleted successfully" NoData))
  /\ (role user = "editor" -> Post.author post <> _id user ->
      deletePost db user id
      = (db, Json 403 false "Not authorized to delete this post" NoData)).
Proof.
  intros Hp ->.
  pose proof (mayUpdatePost_true user post) as Hu.
  pose proof (mayDeletePost_true user post) as Hd.
  split; [| split; [| split]].
  - rewrite (updatePost_403 db user id body post Hp), <- Hu.
    by destruct (mayUpdatePost user post).
  - unfold deletePost. rewrite Hp, <- Hd.
    by destruct (mayDeletePost user post).
  - intros Hok. apply Hd in Hok. unfold deletePost. by rewrite Hp, Hok.
  - intros Hed Hno. unfold deletePost. rewrite Hp.
    destruct (mayDeletePost user post) eqn:Hm; [| done].
    destruct (proj1 Hd eq_refl) as [Ha | Ha]; [done |].
    rewrite Hed in Ha. discriminate.
Qed.

(** On the editor's post: bob (a plain user) is refused both ways, the
    editor who wrote it may delete it. *)
Lemma C1_bob_is_refused :
  statusCode (updatePost dbPublished [] bob helloId (statusBody "archived")).2
  = Some 403
  /\ statusCode (deletePost dbPublished bob helloId).2 = Some 403
  /\ statusCode (deletePost dbPublished erin helloId).2 = Some 200.
Proof.
  destruct (C1_post_authorization
              dbPublished bob helloId (statusBody "archived") []
              (Post.mk "Hello World" (Some "hello-world-1000")
                 "A first post whose content is comfortably longer than fifty characters."
                 None "" (_id erin) newsId [rocqId] "published" (Some 1000%Z)
                 0%Z [] 1 true))
    as (Hupd & Hdel & _ & _); [vm_compute; reflexivity | reflexivity |].
  split; [| split].
  - apply Hupd. intros [H | [H | H]]; discriminate H.
  - apply Hdel. intros [H | H]; discriminate H.
  - vm_compute; reflexivity.
Defined.

(** ** Creating a comment *)

(** [Post.findOne({ _id, status: "published", isActive: true })] as the
    handler computes it. *)
Lemma createComment_post_gate now newId db errors user postId body :
  succeeded (createComment now newId db errors user postId body).2 = true ->
  exists p,
    posts db !! postId = Some p
    /\ Post.status p = "published" /\ Post.isActive p = true.
Proof.
  unfold createComment.
  destruct (isEmpty errors); simpl; [| done].
  destruct (posts db !! postId) as [p |]; [| done].
  destruct (String.eqb (Post.status p) "published") eqn:Hs; [| done].
  destruct (Post.isActive p) eqn:Ha; [| done].
  intros _. exists p. apply String.eqb_eq in Hs. done.
Qed.

(** C2. When the body of a comment-creation request carries a parentComment
    reference, the creation succeeds only if a comment with that id is
    stored and its post is the post of the request; if no such comment is
    stored, or it is a comment on another post, the request is answered with
    an error (400, or 404 for the post) and the database is unchanged. *)
Theorem C2_parent_comment_checked
    (now : Date) (newId : ObjectId) (db : DB) (errors : list string)
    (user : User) (postId : ObjectId) (body : Comment.body) (pid : ObjectId) :
  Comment.b_parentComment body = Some pid ->
  pid <> "" ->
  (succeeded (createComment now newId db errors user postId body).2 = true ->
   exists c, comments db !! pid = Some c /\ Comment.post c = postId)
  /\ (comments db !! pid = None
      \/ (exists c, comments db !! pid = Some c /\ Comment.post c <> postId) ->
      (createComment now newId db errors user postId body).1 = db
      /\ succeeded (createComment now newId db errors user postId body).2
         = false
      /\ (statusCode (createComment now newId db errors user postId body).2
          = Some 400
          \/ statusCode (createComment now newId db errors user postId body).2
             = Some 404)).
Proof.
  intros Hb Hne.
  assert (Ht : truthy (Comment.b_parentComment body) = true).
  { rewrite Hb. simpl. apply negb_true_iff. by apply String.eqb_neq. }
  unfold createComment. rewrite Ht, Hb. simpl.
  destruct (isEmpty errors); simpl; [| split; [done | by auto]].
  destruct (match posts db !! postId with Some _ => _ | None => _ end);
    [| split; [done | by auto]].
  destruct (comments db !! pid) as [c |] eqn:Hc.
  - destruct (String.eqb (Comment.post c) postId) eqn:Hpost; simpl.
    + apply String.eqb_eq in Hpost. split.
      * intros _. by exists c.
      * intros [? | (c0 & [= <-] & Hc0)]; done.
    + split; [by destruct (Comment.isActive c) |]. by auto.
  - split; [done | by auto].
Qed.

(** Bob answers a comment that does not exist: 400, nothing is stored. *)
Lemma C2_reply_to_missing_parent :
  (createComment 4000 secondId dbCommented [] bob helloId
                 (replyBody "Me too" secondId)).1 = dbCommented
  /\ statusCode (createComment 4000 secondId dbCommented [] bob helloId
                               (replyBody "Me too" secondId)).2 = Some 400.
Proof.
  destruct (C2_parent_comment_checked
              4000%Z secondId dbCommented [] bob helloId
              (replyBody "Me too" secondId) secondId)
    as [_ Hfail]; [reflexivity | discriminate |].
  destruct Hfail as (Hdb & _ & Hcode); [left; vm_compute; reflexivity |].
  split; [exact Hdb |].
  destruct Hcode as [H | H]; [exact H |].
  vm_compute in H. discriminate H.
Defined.

(** C9. A comment is created only when the target post is stored with
    status "published" and isActive true.  On a stored post that is a
    draft, archived or inactive nothing is written, and a request that
    passed validation is answered with 404. *)
Theorem C9_comment_needs_published_post
    (now : Date) (newId : ObjectId) (db : DB) (errors : list string)
    (user : User) (postId : ObjectId) (body : Comment.body) :
  (succeeded (createComment now newId db errors user postId body).2 = true ->
   exists p,
     posts db !! postId = Some p
     /\ Post.status p = "published" /\ Post.isActive p = true)
  /\ (forall p,
        posts db !! postId = Some p ->
        Post.status p <> "published" \/ Post.isActive p = false ->
        (createComment now newId db errors user postId body).1 = db
        /\ (errors = [] ->
            (createComment now newId db errors user postId body).2
            = Json 404 false
                   ("Published post not found with id of " +:+ postId)
                   NoData)).
Proof.
  split; [apply createComment_post_gate |].
  intros p Hp Hhidden.
  assert (Hgate : String.eqb (Post.status p) "published" && Post.isActive p
                  = false).
  { apply andb_false_iff. destruct Hhidden as [H | H]; [left | by right].
    by apply String.eqb_neq. }
  unfold createComment. rewrite Hp, Hgate.
  split; [by destruct (isEmpty errors) | by intros ->].
Qed.

(** Alice comments on the draft: 404, nothing is stored. *)
Lemma C9_comment_on_draft :
  (createComment 2000 firstId dbDraft [] alice helloId
                 (contentBody "First!")).1 = dbDraft
  /\ statusCode (createComment 2000 firstId dbDraft [] alice helloId
                               (contentBody "First!")).2 = Some 404.
Proof.
  destruct (C9_comment_needs_published_post
              2000%Z firstId dbDraft [] alice helloId (contentBody "First!"))
    as [_ Hhidden].
  destruct (Hhidden
              (Post.mk "Hello World" (Some "hello-world-1000")
                 "A first post whose content is comfortably longer than fifty characters."
                 None "" (_id erin) newsId [rocqId] "draft" None 0%Z [] 1
                 true))
    as [Hdb Hcode];
    [vm_compute; reflexivity | left; discriminate |].
  split; [exact Hdb |]. by rewrite Hcode.
Defined.

(** ** Toggle-like *)

Section Toggle.

Variable uid : ObjectId.

Lemma arr_includes_In (l : list ObjectId) :
  arr_includes l uid = true <-> In uid l.
Proof.
  unfold arr_includes. rewrite existsb_exists. split.
  - intros (x & Hx & Heq). apply String.eqb_eq in Heq. by subst.
  - intros Hin. exists uid. split; [done | apply String.eqb_refl].
Qed.

Lemma arr_includes_count (l : list ObjectId) :
  arr_includes l uid = false <-> count_occ string_dec l uid = 0.
Proof.
  rewrite <- count_occ_not_In, <- arr_includes_In.
  by destruct (arr_includes l uid).
Qed.

Lemma arr_pull_absent (l : list ObjectId) :
  arr_includes l uid = false -> arr_pull l uid = l.
Proof.
  unfold arr_includes, arr_pull. induction l as [| x l IH]; simpl; [done |].
  intros H. apply orb_false_iff in H as [Hx Hl].
  rewrite Hx. simpl. by rewrite IH.
Qed.

Lemma arr_pull_excludes (l : list ObjectId) :
  arr_includes (arr_pull l uid) uid = false.
Proof.
  unfold arr_includes, arr_pull. induction l as [| x l IH]; simpl; [done |].
  destruct (String.eqb uid x) eqn:Hx; simpl; [done |]. by rewrite Hx.
Qed.

Lemma arr_push_includes (l : list ObjectId) :
  arr_includes (arr_push l uid) uid = true.
Proof.
  apply arr_includes_In. unfold arr_push. apply in_or_app. right. by left.
Qed.

(** Pulling after a push on an array without the caller gives the array
    back, entry for entry. *)
Lemma pull_push (l : list ObjectId) :
  arr_includes l uid = false -> arr_pull (arr_push l uid) uid = l.
Proof.
  intros H. unfold arr_push, arr_pull. rewrite List.filter_app. simpl.
  rewrite String.eqb_refl. simpl. rewrite app_nil_r.
  by apply arr_pull_absent.
Qed.

(** An array is its pulled version plus one copy of the caller per
    occurrence. *)
Lemma pull_split (l : list ObjectId) :
  l ≡ₚ arr_pull l uid ++ repeat uid (count_occ string_dec l uid).
Proof.
  unfold arr_pull. induction l as [| x l IH]; simpl; [done |].
  destruct (string_dec x uid) as [-> | Hne].
  - rewrite String.eqb_refl. simpl.
    rewrite <- Permutation_middle. by constructor.
  - assert (String.eqb uid x = false) as -> by (apply String.eqb_neq; congruence).
    simpl. by constructor.
Qed.

(** Pushing after a pull restores the array up to the order of its entries
    when the caller occurred in it once. *)
Lemma push_pull (l : list ObjectId) :
  count_occ string_dec l uid = 1 -> arr_push (arr_pull l uid) uid ≡ₚ l.
Proof.
  intros H. pose proof (pull_split l) as Hs. rewrite H in Hs. by symmetry.
Qed.

Lemma toggled_twice (l : list ObjectId) :
  count_occ string_dec l uid <= 1 ->
  toggled (toggled l uid) uid ≡ₚ l
  /\ arr_includes (toggled l uid) uid = negb (arr_includes l uid).
Proof.
  intros Hc. unfold toggled.
  destruct (arr_includes l uid) eqn:Hin.
  - rewrite arr_pull_excludes. split; [| done].
    apply push_pull.
    assert (count_occ string_dec l uid <> 0); [| lia].
    rewrite <- arr_includes_count. congruence.
  - rewrite arr_push_includes. split; [| done].
    by rewrite pull_push.
Qed.

(** Whatever the multiplicities, two toggles restore who is in the array. *)
Lemma toggled_twice_membership (l : list ObjectId) (v : ObjectId) :
  In v (toggled (toggled l uid) uid) <-> In v l.
Proof.
  unfold toggled. destruct (arr_includes l uid) eqn:Hin.
  - rewrite arr_pull_excludes. unfold arr_push, arr_pull.
    rewrite in_app_iff, filter_In, negb_true_iff, String.eqb_neq. simpl.
    apply arr_includes_In in Hin.
    destruct (string_dec uid v) as [<- | Hne]; [tauto |].
    split; [intros [[? _] | [? | []]]; done | intros ?; left; done].
  - rewrite arr_push_includes. by rewrite pull_push.
Qed.

End Toggle.

(** One toggle on a stored, valid comment: the likes are toggled, the rest
    of the document stays, the response reports the new length and the new
    membership. *)
Lemma toggleLikeComment_ok now db user id c :
  comments db !! id = Some c ->
  Comment.validate c = None ->
  exists c1 msg,
    toggleLikeComment now db user id
    = (setComments db (<[id := c1]> (comments db)),
       Json 200 true msg
            (LikeData (length (toggled (Comment.likes c) (_id user)))
                      (negb (arr_includes (Comment.likes c) (_id user)))))
    /\ Comment.likes c1 = toggled (Comment.likes c) (_id user)
    /\ Comment.validate c1 = None.
Proof.
  intros Hc Hv. unfold toggleLikeComment. rewrite Hc.
  unfold Comment.save. fold (toggled (Comment.likes c) (_id user)).
  match goal with
  | |- context [Comment.validate ?d] =>
      change (Comment.validate d) with (Comment.validate c)
  end.
  rewrite Hv, pre_save_stored by reflexivity. simpl.
  eexists. eexists. split; [reflexivity |]. by split.
Qed.

Lemma toggleLikePost_ok now db user id p :
  posts db !! id = Some p ->
  Post.validate p = None ->
  exists p1 msg,
    toggleLikePost now db user id
    = (setPosts db (<[id := p1]> (posts db)),
       Json 200 true msg
            (LikeData (length (toggled (Post.likes p) (_id user)))
                      (negb (arr_includes (Post.likes p) (_id user)))))
    /\ Post.likes p1 = toggled (Post.likes p) (_id user)
    /\ Post.validate p1 = None.
Proof.
  intros Hp Hv. unfold toggleLikePost. rewrite Hp.
  unfold Post.save. fold (toggled (Post.likes p) (_id user)).
  match goal with
  | |- context [Post.validate ?d] =>
      change (Post.validate d) with (Post.validate p)
  end.
  rewrite Hv. simpl.
  eexists. eexists. split; [reflexivity |]. by split.
Qed.

(** C8, as stated, fails on an array that holds the caller twice: bob is
    twice in the likes of the comment, two toggles by bob leave him in it
    once, and the count goes from 2 to 0 to 1. *)
Lemma C8_duplicate_entry_breaks_count :
  Comment.likes <$> comments dbDoubleLiked !! firstId
  = Some [_id bob; _id bob]
  /\ (toggleLikeComment 3000 dbDoubleLiked bob firstId).2
     = Json 200 true "Comment unliked successfully" (LikeData 0 false)
  /\ (toggleLikeComment 4000
        (toggleLikeComment 3000 dbDoubleLiked bob firstId).1 bob firstId).2
     = Json 200 true "Comment liked successfully" (LikeData 1 true)
  /\ Comment.likes <$>
       comments (toggleLikeComment 4000
                   (toggleLikeComment 3000 dbDoubleLiked bob firstId).1
                   bob firstId).1 !! firstId
     = Some [_id bob].
Proof. vm_compute. repeat split; reflexivity. Qed.

(** C8, amended. On a stored comment, and likewise on a stored post, that
    passes its schema's validators and in whose likes the caller occurs at
    most once, two toggle-like calls in sequence leave a likes array with
    the entries of the original one (in some order), and the second
    response reports the original length and the original membership of
    the caller.  The two halves are independent: neither asks anything of
    the other collection. *)
Theorem C8_toggle_twice_restores
    (now1 now2 : Date) (db : DB) (user : User) (cid pid : ObjectId) :
  (forall c : Comment.t,
    comments db !! cid = Some c ->
    Comment.validate c = None ->
    count_occ string_dec (Comment.likes c) (_id user) <= 1 ->
    exists c2 msg,
      comments (toggleLikeComment now2
                  (toggleLikeComment now1 db user cid).1 user cid).1 !! cid
      = Some c2
      /\ Comment.likes c2 ≡ₚ Comment.likes c
      /\ (toggleLikeComment now2
            (toggleLikeComment now1 db user cid).1 user cid).2
         = Json 200 true msg
                (LikeData (length (Comment.likes c))
                          (arr_includes (Comment.likes c) (_id user))))
  /\ (forall p : Post.t,
      posts db !! pid = Some p ->
      Post.validate p = None ->
      count_occ string_dec (Post.likes p) (_id user) <= 1 ->
      exists p2 msg,
        posts (toggleLikePost now2
                 (toggleLikePost now1 db user pid).1 user pid).1 !! pid
        = Some p2
        /\ Post.likes p2 ≡ₚ Post.likes p
        /\ (toggleLikePost now2
              (toggleLikePost now1 db user pid).1 user pid).2
           = Json 200 true msg
                  (LikeData (length (Post.likes p))
                            (arr_includes (Post.likes p) (_id user)))).
Proof.
  split; [intros c Hc Hcv Hcn | intros p Hp Hpv Hpn].
  - destruct (toggleLikeComment_ok now1 db user cid c Hc Hcv)
      as (c1 & msg1 & -> & Hl1 & Hv1).
    simpl.
    destruct (toggleLikeComment_ok now2
                (setComments db (<[cid := c1]> (comments db))) user cid c1)
      as (c2 & msg2 & -> & Hl2 & Hv2);
      [simpl; apply lookup_insert_eq | exact Hv1 |].
    destruct (toggled_twice (_id user) (Comment.likes c) Hcn) as [Hperm Hin].
    exists c2, msg2. simpl. rewrite lookup_insert_eq.
    rewrite Hl1 in *. rewrite Hl2.
    split; [done |]. split; [done |].
    by rewrite (Permutation_length Hperm), Hin, negb_involutive.
  - destruct (toggleLikePost_ok now1 db user pid p Hp Hpv)
      as (p1 & msg1 & -> & Hl1 & Hv1).
    simpl.
    destruct (toggleLikePost_ok now2
                (setPosts db (<[pid := p1]> (posts db))) user pid p1)
      as (p2 & msg2 & -> & Hl2 & Hv2);
      [simpl; apply lookup_insert_eq | exact Hv1 |].
    destruct (toggled_twice (_id user) (Post.likes p) Hpn) as [Hperm Hin].
    exists p2, msg2. simpl. rewrite lookup_insert_eq.
    rewrite Hl1 in *. rewrite Hl2.
    split; [done |]. split; [done |].
    by rewrite (Permutation_length Hperm), Hin, negb_involutive.
Qed.

(** Alice and bob like the comment and the post; alice toggles twice on
    each: she is back in both arrays (now behind bob) and both counts are 2
    again. *)
Lemma C8_alice_toggles_twice :
  (exists c2 msg,
      comments (toggleLikeComment 4000
                  (toggleLikeComment 3000 dbLiked alice firstId).1
                  alice firstId).1 !! firstId = Some c2
      /\ Comment.likes c2 ≡ₚ [_id alice; _id bob]
      /\ (toggleLikeComment 4000
            (toggleLikeComment 3000 dbLiked alice firstId).1
            alice firstId).2
         = Json 200 true msg (LikeData 2 true))
  /\ (exists p2 msg,
        posts (toggleLikePost 4000
                 (toggleLikePost 3000 dbLiked alice helloId).1
                 alice helloId).1 !! helloId = Some p2
        /\ Post.likes p2 ≡ₚ [_id alice; _id bob]
        /\ (toggleLikePost 4000
              (toggleLikePost 3000 dbLiked alice helloId).1
              alice helloId).2
           = Json 200 true msg (LikeData 2 true)).
Proof.
  destruct (C8_toggle_twice_restores
              3000%Z 4000%Z dbLiked alice firstId helloId) as [Hc Hp].
  split.
  - apply (Hc (Comment.mk "First!" (_id alice) helloId None []
                          [_id alice; _id bob] "approved" false None true));
      [vm_compute; reflexivity | reflexivity | vm_compute; lia].
  - apply (Hp (Post.mk "Hello World" (Some "hello-world-1000")
                 "A first post whose content is comfortably longer than fifty characters."
                 None "" (_id erin) newsId [rocqId] "published"
                 (Some 1000%Z) 0%Z [_id alice; _id bob] 1 true));
      [vm_compute; reflexivity | reflexivity | vm_compute; lia].
Defined.

(** ** Deleting a category or a tag *)




(** ** The publication date *)

(** What the save hook does for the date: a published post leaves it with
    a date, and a date that is set is kept as it is. *)
Lemma pre_save_stamps now modified p :
  Post.status p = "published" ->
  is_Some (Post.publishedAt (Post.pre_save now modified p)).
Proof.
  intros Hs. unfold Post.pre_save. simpl. rewrite Hs. simpl.
  case_bool_decide as Hd; simpl; [exact Hd | by eexists].
Qed.

Lemma pre_save_keeps_publishedAt now modified p d :
  Post.publishedAt p = Some d ->
  Post.publishedAt (Post.pre_save now modified p) = Some d.
Proof.
  intros Hd. unfold Post.pre_save. simpl. rewrite Hd.
  rewrite bool_decide_eq_true_2 by (by eexists).
  by rewrite andb_false_r.
Qed.

(** C4. A published post need not have a publication date: [updatePost]
    writes through [findByIdAndUpdate], on which the [pre("save")] hook
    does not run.  When the body sets the status to "published" and does
    not name publishedAt, a post without a publication date is stored as
    published and still has none. *)
Theorem C4_updatePost_publishes_without_date
    (db : DB) (user : User) (id : ObjectId) (body : Post.body) (p : Post.t) :
  posts db !! id = Some p ->
  Post.publishedAt p = None ->
  Post.b_status body = Some "published" ->
  Post.b_publishedAt body = None ->
  succeeded (updatePost db [] user id body).2 = true ->
  exists p',
    posts (updatePost db [] user id body).1 !! id = Some p'
    /\ Post.status p' = "published"
    /\ Post.publishedAt p' = None.
Proof.
  intros Hp Hd Hs Hb. unfold updatePost. simpl. rewrite Hp.
  destruct (mayUpdatePost user p); simpl; [| done].
  destruct (truthy _ && _); [done |].
  destruct (tagsInvalid db body); [done |].
  unfold Post.findByIdAndUpdate.
  destruct (Post.firstError _); [done |].
  rewrite Hp. simpl. intros _.
  rewrite lookup_insert_eq. eexists. split; [reflexivity |].
  simpl. by rewrite Hs, Hb.
Qed.

(** The editor's draft, published through the update route: the stored
    post is published and has no publication date. *)
Lemma C4_draft_published_by_update :
  exists p',
    posts (updatePost dbDraft [] erin helloId (statusBody "published")).1
      !! helloId = Some p'
    /\ Post.status p' = "published"
    /\ Post.publishedAt p' = None.
Proof.
  apply (C4_updatePost_publishes_without_date
           dbDraft erin helloId (statusBody "published")
           (Post.mk "Hello World" (Some "hello-world-1000")
              "A first post whose content is comfortably longer than fifty characters."
              None "" (_id erin) newsId [rocqId] "draft" None 0%Z [] 1 true)).
  - vm_compute; reflexivity.
  - reflexivity.
  - reflexivity.
  - reflexivity.
  - vm_compute; reflexivity.
Defined.

(** An update that does not touch the status but carries
    [publishedAt: null] clears the date of a published post. *)
Lemma updatePost_null_clears_publishedAt :
  Post.publishedAt <$> posts dbPublished !! helloId = Some (Some 1000%Z)
  /\ (fun p => (Post.status p, Post.publishedAt p)) <$>
       posts (updatePost dbPublished [] erin helloId nullPublishedAtBody).1
         !! helloId
     = Some ("published", None).
Proof. vm_compute. split; reflexivity. Qed.

(** ** Reading a post *)



(** X2. A public read of a stored, published, active post whose view
    counter is an integer of magnitude below 2^53 adds exactly one to the
    counter, changes nothing else, and answers with the document as it was
    before the count. *)
Theorem getPost_views
    (db : DB) (user : option User) (id : ObjectId) (p : Post.t) :
  posts db !! id = Some p ->
  isPublicAccess user = true ->
  Post.status p = "published" ->
  Post.isActive p = true ->
  (- 2 ^ 53 < Post.views p < 2 ^ 53)%Z ->
  getPost db user id
  = (setPosts db (<[id := incViews p]> (posts db)),
     Json 200 true "" (PostDoc (Some p)))
  /\ (- 2 ^ 53 < Post.views (incViews p) <= 2 ^ 53)%Z.
Proof.
  intros Hp Hpub Hs Ha Hv. split; [| simpl; lia].
  unfold getPost. rewrite Hp, Hpub, Hs, Ha. simpl. do 2 f_equal.
  apply map_eq. intros j. destruct (decide (id = j)) as [<- | Hne].
  - by rewrite lookup_alter_eq, lookup_insert_eq, Hp.
  - by rewrite lookup_alter_ne, lookup_insert_ne.
Qed.

Lemma getPost_views_sample :
  Post.views <$> posts (getPost dbPublished None helloId).1 !! helloId
  = Some 1%Z
  /\ (getPost dbPublished None helloId).2
     = Json 200 true ""
            (PostDoc (Some
               (Post.mk "Hello World" (Some "hello-world-1000")
                  "A first post whose content is comfortably longer than fifty characters."
                  None "" (_id erin) newsId [rocqId] "published"
                  (Some 1000%Z) 0%Z [] 1 true))).
Proof.
  destruct (getPost_views dbPublished None helloId
              (Post.mk "Hello World" (Some "hello-world-1000")
                 "A first post whose content is comfortably longer than fifty characters."
                 None "" (_id erin) newsId [rocqId] "published" (Some 1000%Z)
                 0%Z [] 1 true)) as [Hpub _];
    [vm_compute; reflexivity | reflexivity | reflexivity | reflexivity
    | simpl; lia |].
  rewrite Hpub. split; [vm_compute; reflexivity | reflexivity].
Defined.

(** ** Creating a post *)

(** X3. A create-post request whose category is absent from the body or
    from the category collection is answered with 400 and no post is
    stored. *)
Theorem createPost_unknown_category
    (now : Date) (newId : ObjectId) (db : DB) (errors : list string)
    (user : User) (body : Post.body) :
  Post.b_category body ≫= (fun c => categories db !! c) = None ->
  (createPost now newId db errors user body).1 = db
  /\ statusCode (createPost now newId db errors user body).2 = Some 400
  /\ (errors = [] ->
      (createPost now newId db errors user body).2
      = Json 400 false "Invalid category ID" NoData).
Proof.
  intros Hc. unfold createPost. rewrite Hc.
  destruct errors; simpl; repeat split; done.
Qed.

Lemma createPost_unknown_category_sample :
  createPost 1000 helloId seed [] erin
    (Post.mkBody (Some "Hello World") None (Some "Some content") None None
                 None (Some rocqId) None None None None None None None)
  = (seed, Json 400 false "Invalid category ID" NoData).
Proof.
  destruct (createPost_unknown_category
              1000%Z helloId seed [] erin
              (Post.mkBody (Some "Hello World") None (Some "Some content")
                 None None None (Some rocqId) None None None None None None
                 None)) as (Hdb & _ & Hr); [vm_compute; reflexivity |].
  rewrite <- Hdb at 2. rewrite <- (Hr eq_refl). by destruct (createPost _ _ _ _ _ _).
Defined.

(** X4. When create-post succeeds the id was free, the stored post is
    written by the caller (an author in the body is overwritten), has the
    status of the body or "draft", has a publication date if it is
    published, passes the schema validators, and every other post is as
    before. *)
Theorem createPost_success
    (now : Date) (newId : ObjectId) (db : DB) (errors : list string)
    (user : User) (body : Post.body) :
  succeeded (createPost now newId db errors user body).2 = true ->
  posts db !! newId = None
  /\ (exists p,
        posts (createPost now newId db errors user body).1 !! newId = Some p
        /\ Post.author p = _id user
        /\ Post.status p = default "draft" (Post.b_status body)
        /\ (Post.status p = "published" -> is_Some (Post.publishedAt p))
        /\ Post.validate p = None)
  /\ (forall j, j <> newId ->
        posts (createPost now newId db errors user body).1 !! j
        = posts db !! j).
Proof.
  unfold createPost.
  destruct (isEmpty errors); simpl; [| done].
  destruct (Post.b_category body ≫= _) eqn:Hcat; [| done].
  destruct (tagsInvalid db body); [done |].
  unfold Post.create. simpl.
  destruct (Post.b_title body) as [ti |] eqn:Hti; [| done].
  destruct (Post.b_content body) as [co |]; [| done].
  destruct (Post.b_category body) as [ca |]; [| done].
  unfold Post.save.
  match goal with |- context [Post.validate ?d] =>
    destruct (Post.validate d) eqn:Hv; [done |]; set (doc := d) in *
  end.
  cbn [andb]. case_bool_decide as Hnew; [done |].
  cbn [fst snd succeeded posts setPosts]. intros _.
  split; [by apply eq_None_not_Some |].
  split.
  - rewrite lookup_insert_eq. eexists. split; [reflexivity |].
    split; [reflexivity |]. split; [reflexivity |].
    split; [intros Hs; apply pre_save_stamps; exact Hs | exact Hv].
  - intros j Hj. by rewrite lookup_insert_ne.
Qed.

(** The editor's published post, with an author in the body that does not
    survive. *)
Lemma createPost_success_sample :
  exists p,
    posts (createPost 1000 helloId seed [] erin
             (Post.mkBody (Some "Hello World") (Some "my-slug")
                (Some "Some content") None None (Some (_id bob))
                (Some newsId) None (Some "published") None None None None
                None)).1 !! helloId = Some p
    /\ Post.author p = _id erin
    /\ Post.status p = "published"
    /\ (Post.status p = "published" -> is_Some (Post.publishedAt p))
    /\ Post.validate p = None.
Proof.
  apply (createPost_success
           1000%Z helloId seed [] erin
           (Post.mkBody (Some "Hello World") (Some "my-slug")
              (Some "Some content") None None (Some (_id bob))
              (Some newsId) None (Some "published") None None None None
              None)).
  vm_compute; reflexivity.
Defined.

(** ** The tag check of the post routes *)

Section CountIn.

Context {V : Type}.
Implicit Types (coll : gmap string V) (ids : list ObjectId).

(** The ids that [Model.find({ _id: { $in: ids } })] returns. *)
Lemma found_ids_spec coll ids k :
  k ∈ (List.filter (fun kv => existsb (String.eqb kv.1) ids)
                   (map_to_list coll)).*1
  <-> k ∈ ids /\ is_Some (coll !! k).
Proof.
  rewrite list_elem_of_fmap. split.
  - intros ([k' v] & -> & Hin). apply list_elem_of_In, filter_In in Hin.
    destruct Hin as [Hin Hex]. apply list_elem_of_In, elem_of_map_to_list in Hin.
    apply existsb_exists in Hex as (x & Hx & Heq).
    apply String.eqb_eq in Heq. simpl in *. subst x.
    split; [by apply list_elem_of_In | by exists v].
  - intros [Hk [v Hv]]. exists (k, v). split; [done |].
    apply list_elem_of_In, filter_In. split.
    + by apply list_elem_of_In, elem_of_map_to_list.
    + apply existsb_exists. exists k.
      split; [by apply list_elem_of_In | apply String.eqb_refl].
Qed.

Lemma found_ids_NoDup coll ids :
  NoDup (List.filter (fun kv => existsb (String.eqb kv.1) ids)
                     (map_to_list coll)).*1.
Proof.
  pose proof (NoDup_fst_map_to_list coll) as Hnd.
  induction (map_to_list coll) as [| [k v] l IH]; simpl; [constructor |].
  apply NoDup_cons in Hnd as [Hk Hl].
  destruct (existsb (String.eqb k) ids); simpl; [| by apply IH].
  constructor; [| by apply IH].
  rewrite list_elem_of_fmap. intros ([k' v'] & -> & Hin). apply Hk.
  apply list_elem_of_In, filter_In in Hin as [Hin _].
  apply list_elem_of_fmap. exists (k', v'). split; [done |].
  by apply list_elem_of_In.
Qed.

(** As many documents are found as ids were asked for exactly when the ids
    are pairwise distinct and each one is stored. *)
Lemma countIn_full coll ids :
  countIn ids coll = length ids
  <-> NoDup ids /\ Forall (fun t => is_Some (coll !! t)) ids.
Proof.
  unfold countIn.
  rewrite <- (length_fmap fst (List.filter _ (map_to_list coll))).
  pose proof (found_ids_NoDup coll ids) as Hnd.
  pose proof (found_ids_spec coll ids) as Hspec.
  set (K := (List.filter _ (map_to_list coll)).*1) in *.
  assert (Hsub : K ⊆+ ids).
  { apply NoDup_submseteq; [done |]. intros k Hk. by apply Hspec in Hk as []. }
  split.
  - intros Hlen.
    assert (Hperm : K ≡ₚ ids)
      by (apply submseteq_length_Permutation; [done | lia]).
    split; [by rewrite <- Hperm |].
    apply Forall_forall. intros t Ht.
    rewrite <- Hperm in Ht. by apply Hspec in Ht as [].
  - intros [Hndi Hall].
    assert (Hsup : ids ⊆+ K).
    { apply NoDup_submseteq; [done |]. intros k Hk. apply Hspec.
      split; [done |]. by eapply Forall_forall in Hall. }
    apply submseteq_length in Hsub, Hsup. lia.
Qed.

End CountIn.

(** X5. The tag check of create-post and update-post lets a body through
    exactly when its tag list, if any, names pairwise distinct tags that are
    all stored; a list that names a tag twice is refused like a list with an
    unknown tag. *)
Theorem tagsInvalid_spec (db : DB) (body : Post.body) (l : list ObjectId) :
  Post.b_tags body = Some l ->
  tagsInvalid db body = false
  <-> NoDup l /\ Forall (fun t => is_Some (tags db !! t)) l.
Proof.
  intros Hl. unfold tagsInvalid. rewrite Hl.
  destruct l as [| t ts].
  - split; [intros _; split; constructor | done].
  - rewrite negb_false_iff, Nat.eqb_eq. apply countIn_full.
Qed.

Lemma tagsInvalid_spec_sample :
  tagsInvalid dbPublished
    (Post.mkBody None None None None None None None (Some [rocqId; rocqId])
                 None None None None None None) = false
  <-> NoDup [rocqId; rocqId]
      /\ Forall (fun t => is_Some (tags dbPublished !! t)) [rocqId; rocqId].
Proof. apply tagsInvalid_spec. reflexivity. Defined.

(** ** Updating and deleting a post *)

Lemma updatePost_cases db errors user id body p :
  posts db !! id = Some p ->
  (updatePost db errors user id body).1 = db
  /\ succeeded (updatePost db errors user id body).2 = false
  \/ updatePost db errors user id body
     = (setPosts db (<[id := Post.applyUpdate body p]> (posts db)),
        Json 200 true "Post updated successfully"
             (PostDoc (Some (Post.applyUpdate body p)))).
Proof.
  intros Hp. unfold updatePost.
  destruct (isEmpty errors); simpl; [| by left].
  rewrite Hp.
  destruct (mayUpdatePost user p); simpl; [| by left].
  destruct (truthy _ && _); [by left |].
  destruct (tagsInvalid db body); [by left |].
  unfold Post.findByIdAndUpdate.
  destruct (Post.firstError _); [by left |].
  rewrite Hp. by right.
Qed.

(** X6. Update-post confines its writes to the post named: every other
    post, and every comment, category and tag, is as before, whether or not
    the post is stored and whatever the body holds; a request that is not
    answered with success has written nothing. *)
Theorem updatePost_frame
    (db : DB) (errors : list string) (user : User) (id : ObjectId)
    (body : Post.body) :
  (succeeded (updatePost db errors user id body).2 = false ->
   (updatePost db errors user id body).1 = db)
  /\ (forall j, j <> id ->
        posts (updatePost db errors user id body).1 !! j = posts db !! j)
  /\ comments (updatePost db errors user id body).1 = comments db
  /\ categories (updatePost db errors user id body).1 = categories db
  /\ tags (updatePost db errors user id body).1 = tags db.
Proof.
  destruct (posts db !! id) as [p |] eqn:Hp.
  - destruct (updatePost_cases db errors user id body p Hp)
      as [[Hdb Hf] | Heq].
    + rewrite Hdb. by repeat split.
    + rewrite Heq. cbn [fst snd succeeded]. split; [discriminate |].
      split; [| done]. intros j Hj. simpl. by rewrite lookup_insert_ne.
  - unfold updatePost. rewrite Hp. by destruct (isEmpty errors).
Qed.

(** Bob's refused update of the editor's post leaves the database as it
    was. *)
Lemma updatePost_frame_sample :
  (updatePost dbPublished [] bob helloId (statusBody "archived")).1
  = dbPublished.
Proof.
  apply (updatePost_frame dbPublished [] bob helloId (statusBody "archived")).
  vm_compute; reflexivity.
Defined.

(** X7. Delete-post touches the post collection only, and in it only the
    post named: every other post stays, and so do the comments written on
    the deleted post; after a successful call the post is gone. *)
Theorem deletePost_frame (db : DB) (user : User) (id : ObjectId) :
  comments (deletePost db user id).1 = comments db
  /\ categories (deletePost db user id).1 = categories db
  /\ tags (deletePost db user id).1 = tags db
  /\ (forall j, j <> id ->
        posts (deletePost db user id).1 !! j = posts db !! j)
  /\ (succeeded (deletePost db user id).2 = true ->
      posts (deletePost db user id).1 !! id = None)
  /\ (succeeded (deletePost db user id).2 = false ->
      (deletePost db user id).1 = db).
Proof.
  unfold deletePost.
  destruct (posts db !! id) as [p |]; [| by repeat split].
  destruct (mayDeletePost user p); simpl; [| by repeat split].
  repeat split; try done.
  - intros j Hj. by rewrite lookup_delete_ne.
  - intros _. apply lookup_delete_eq.
Qed.

Lemma deletePost_frame_sample :
  posts (deletePost dbCommented erin helloId).1 !! helloId = None
  /\ comments (deletePost dbCommented erin helloId).1 = comments dbCommented.
Proof.
  destruct (deletePost_frame dbCommented erin helloId)
    as (Hc & _ & _ & _ & Hgone & _).
  split; [apply Hgone; vm_compute; reflexivity | exact Hc].
Defined.

(** ** Authorization on comments *)

(** X8. For a stored comment: update-comment (on a request that passed
    validation) is refused with 403 exactly when the caller is neither the
    comment's author nor an admin nor an editor; delete-comment is refused
    with 403 exactly when the caller is neither the author nor an admin,
    so an editor cannot delete another user's comment. *)
Theorem comment_authorization
    (db : DB) (user : User) (id : ObjectId) (body : Comment.body)
    (c : Comment.t) :
  comments db !! id = Some c ->
  (statusCode (updateComment db [] user id body).2 = Some 403
   <-> ~ (Comment.author c = _id user \/ role user = "admin"
          \/ role user = "editor"))
  /\ (statusCode (deleteComment db user id).2 = Some 403
      <-> ~ (Comment.author c = _id user \/ role user = "admin")).
Proof.
  intros Hc. split.
  - unfold updateComment. simpl. rewrite Hc.
    match goal with |- context [if ?b then _ else _] =>
      assert (Hb : b = true
                   <-> ~ (Comment.author c = _id user \/ role user = "admin"
                          \/ role user = "editor"));
      [| destruct b]
    end.
    + rewrite !andb_true_iff, !negb_true_iff, !String.eqb_neq. tauto.
    + simpl. tauto.
    + destruct (Comment.findByIdAndUpdate _ _ _) as [e | [coll doc]]; simpl;
        (split; [discriminate | intros H; apply Hb in H; discriminate H]).
  - unfold deleteComment. rewrite Hc.
    match goal with |- context [if ?b then _ else _] =>
      assert (Hb : b = true
                   <-> ~ (Comment.author c = _id user \/ role user = "admin"));
      [| destruct b]
    end.
    + rewrite !andb_true_iff, !negb_true_iff, !String.eqb_neq. tauto.
    + simpl. tauto.
    + simpl. split; [discriminate | intros H; apply Hb in H; discriminate H].
Qed.

(** The editor may rewrite alice's comment but not delete it. *)
Lemma comment_authorization_sample :
  statusCode (updateComment dbCommented [] erin firstId
                            (contentBody "Moderated")).2 = Some 200
  /\ statusCode (deleteComment dbCommented erin firstId).2 = Some 403.
Proof.
  destruct (comment_authorization
              dbCommented erin firstId (contentBody "Moderated")
              (Comment.mk "First!" (_id alice) helloId None [] [] "approved"
                          false None true)) as [_ Hdel];
    [vm_compute; reflexivity |].
  split; [vm_compute; reflexivity |].
  apply Hdel. intros [H | H]; discriminate H.
Defined.

(** ** Deleting a comment *)

(** X9. A successful delete-comment removes the comment and every comment
    whose parentComment it is, and nothing else: any other comment, a reply
    to a removed reply included, is stored unchanged (so a replies array
    that names a removed comment keeps naming it), and the other
    collections are untouched. *)
Theorem deleteComment_one_level
    (db : DB) (user : User) (id : ObjectId) :
  succeeded (deleteComment db user id).2 = true ->
  comments (deleteComment db user id).1 !! id = None
  /\ (forall j d,
        comments db !! j = Some d -> Comment.parentComment d = Some id ->
        comments (deleteComment db user id).1 !! j = None)
  /\ (forall j d,
        comments db !! j = Some d -> j <> id ->
        Comment.parentComment d <> Some id ->
        comments (deleteComment db user id).1 !! j = Some d)
  /\ posts (deleteComment db user id).1 = posts db.
Proof.
  unfold deleteComment.
  destruct (comments db !! id) as [c |]; [| done].
  destruct (negb _ && negb _); [done |].
  simpl. intros _. split; [apply lookup_delete_eq |].
  split; [| split; [| done]].
  - intros j d Hj Hpar.
    destruct (decide (id = j)) as [<- | Hne]; [apply lookup_delete_eq |].
    rewrite lookup_delete_ne by done.
    apply map_lookup_filter_None. right. intros d' Hd'. simpl.
    rewrite Hj in Hd'. injection Hd' as <-. tauto.
  - intros j d Hj Hne Hpar.
    rewrite lookup_delete_ne by done.
    apply map_lookup_filter_Some. split; done.
Qed.

(** Alice deletes the head of the thread: bob's reply goes with it, her
    reply to bob's reply stays, its parent gone. *)
Lemma deleteComment_one_level_sample :
  comments (deleteComment dbThread alice firstId).1 !! firstId = None
  /\ comments (deleteComment dbThread alice firstId).1 !! secondId = None
  /\ comments (deleteComment dbThread alice firstId).1 !! thirdId
     = Some (Comment.mk "Thanks" (_id alice) helloId (Some secondId) [] []
                        "approved" false None true).
Proof.
  destruct (deleteComment_one_level dbThread alice firstId)
    as (Hgone & Hreply & Hkept & _); [vm_compute; reflexivity |].
  split; [exact Hgone |]. split.
  - apply (Hreply secondId
             (Comment.mk "Me too" (_id bob) helloId (Some firstId) [thirdId]
                         [] "approved" false None true));
      [vm_compute; reflexivity | reflexivity].
  - apply Hkept; [vm_compute; reflexivity | discriminate | discriminate].
Defined.

(** ** What a created comment looks like *)

(** The shape of a successful create-comment call: the id was free and the
    new document, built from the body with the caller and the post of the
    route, passed validation and went through the save hook. *)
Lemma createComment_shape now newId db errors user postId body :
  succeeded (createComment now newId db errors user postId body).2 = true ->
  exists co,
    Comment.b_content body = Some co
    /\ comments db !! newId = None
    /\ Comment.validateContent co = None
    /\ Comment.validateStatus (default "approved" (Comment.b_status body))
       = None
    /\ comments (createComment now newId db errors user postId body).1
       = <[newId :=
             Comment.mk co (_id user) postId (Comment.b_parentComment body)
               (default [] (Comment.b_replies body))
               (default [] (Comment.b_likes body))
               (default "approved" (Comment.b_status body))
               (default false (Comment.b_isEdited body))
               (Comment.b_editedAt body)
               (default true (Comment.b_isActive body))]>
           (match Comment.b_parentComment body with
            | Some p =>
                alter (fun d =>
                         Comment.mk (Comment.content d) (Comment.author d)
                           (Comment.post d) (Comment.parentComment d)
                           (arr_push (Comment.replies d) newId)
                           (Comment.likes d) (Comment.status d)
                           (Comment.isEdited d) (Comment.editedAt d)
                           (Comment.isActive d)) p (comments db)
            | None => comments db
            end).
Proof.
  unfold createComment.
  destruct (isEmpty errors); simpl; [| done].
  destruct (match posts db !! postId with Some _ => _ | None => _ end);
    [| done].
  match goal with |- context [if ?b then (db, _) else _] => destruct b end;
    [done |].
  unfold Comment.create, Comment.withAuthorPost. simpl.
  destruct (Comment.b_content body) as [co |]; [| done].
  unfold Comment.save, Comment.validate.
  cbn [Comment.content Comment.status].
  destruct (Comment.validateContent co) eqn:Hvc; [done |].
  destruct (Comment.validateStatus _) eqn:Hvs; [done |].
  unfold Comment.pre_save. cbn [Comment.parentComment andb negb].
  rewrite andb_false_r.
  destruct (Comment.b_parentComment body) as [pid |];
    cbn [andb]; (case_bool_decide as Hnew; [done |]);
    intros _; exists co; (split; [reflexivity |]);
    (split; [| by split]); apply eq_None_not_Some; intros Hsome;
    apply Hnew; [| done].
  destruct Hsome as [x Hx]. destruct (decide (pid = newId)) as [-> | Hne].
  - rewrite lookup_alter_eq, Hx. by eexists.
  - rewrite lookup_alter_ne by done. by eexists.
Qed.

(** X10. A comment that create-comment stores is written by the caller on
    the post of the route, whatever author or post the body names; its
    status is the one of the body, or "approved" when the body has none,
    and its id was not in use. *)
Theorem createComment_success
    (now : Date) (newId : ObjectId) (db : DB) (errors : list string)
    (user : User) (postId : ObjectId) (body : Comment.body) :
  succeeded (createComment now newId db errors user postId body).2 = true ->
  comments db !! newId = None
  /\ exists c,
      comments (createComment now newId db errors user postId body).1
        !! newId = Some c
      /\ Comment.author c = _id user
      /\ Comment.post c = postId
      /\ Comment.status c = default "approved" (Comment.b_status body)
      /\ Comment.parentComment c = Comment.b_parentComment body
      /\ Some (Comment.content c) = Comment.b_content body.
Proof.
  intros Hok.
  destruct (createComment_shape _ _ _ _ _ _ _ Hok)
    as (co & Hco & Hfree & _ & _ & ->).
  split; [exact Hfree |].
  eexists. split; [apply lookup_insert_eq |]. by repeat split.
Qed.

(** Bob posts a comment whose body claims alice as author and another post:
    the stored comment is bob's, on the post of the route. *)
Lemma createComment_success_sample :
  exists c,
    comments (createComment 4000 secondId dbCommented [] bob helloId
                (Comment.mkBody (Some "Hi") (Some (_id alice))
                   (Some secondId) None None None None None None None)).1
      !! secondId = Some c
    /\ Comment.author c = _id bob
    /\ Comment.post c = helloId
    /\ Comment.status c = "approved"
    /\ Comment.parentComment c = None
    /\ Some (Comment.content c) = Some "Hi".
Proof.
  apply (createComment_success
           4000%Z secondId dbCommented [] bob helloId
           (Comment.mkBody (Some "Hi") (Some (_id alice)) (Some secondId)
              None None None None None None None)).
  vm_compute; reflexivity.
Defined.

(** X11. Beside the new comment, a successful create-comment changes one
    stored comment at most: the parent named in the body, whose replies
    array gains the new id at its end and which is otherwise as before.
    Every other comment is unchanged. *)
Theorem createComment_links_parent
    (now : Date) (newId : ObjectId) (db : DB) (errors : list string)
    (user : User) (postId : ObjectId) (body : Comment.body) :
  succeeded (createComment now newId db errors user postId body).2 = true ->
  (forall pid pc,
     Comment.b_parentComment body = Some pid ->
     comments db !! pid = Some pc ->
     comments (createComment now newId db errors user postId body).1 !! pid
     = Some (Comment.mk (Comment.content pc) (Comment.author pc)
               (Comment.post pc) (Comment.parentComment pc)
               (Comment.replies pc ++ [newId]) (Comment.likes pc)
               (Comment.status pc) (Comment.isEdited pc)
               (Comment.editedAt pc) (Comment.isActive pc)))
  /\ (forall j,
        j <> newId -> Comment.b_parentComment body <> Some j ->
        comments (createComment now newId db errors user postId body).1 !! j
        = comments db !! j).
Proof.
  intros Hok.
  destruct (createComment_shape _ _ _ _ _ _ _ Hok)
    as (co & Hco & Hfree & _ & _ & ->).
  split.
  - intros pid pc -> Hpc.
    rewrite lookup_insert_ne by (intros ->; congruence).
    by rewrite lookup_alter_eq, Hpc.
  - intros j Hj Hpar. rewrite lookup_insert_ne by done.
    destruct (Comment.b_parentComment body) as [p |]; [| done].
    rewrite lookup_alter_ne; [done | congruence].
Qed.

(** Bob replies to alice's comment. *)
Lemma createComment_links_parent_sample :
  comments (createComment 2100 secondId dbCommented [] bob helloId
                          (replyBody "Me too" firstId)).1 !! firstId
  = Some (Comment.mk "First!" (_id alice) helloId None [secondId] []
                     "approved" false None true).
Proof.
  destruct (createComment_links_parent
              2100%Z secondId dbCommented [] bob helloId
              (replyBody "Me too" firstId)) as [Hparent _];
    [vm_compute; reflexivity |].
  apply (Hparent firstId
           (Comment.mk "First!" (_id alice) helloId None [] [] "approved"
                       false None true));
    [reflexivity | vm_compute; reflexivity].
Defined.

(** ** Moderation and single toggles *)

(** X13. Moderating a stored comment (one whose content passes the schema
    validators) as approved or rejected succeeds whatever its present
    status: the status becomes the requested one, every other path of the
    comment is kept, and the updated comment is the data of the answer. *)
Theorem moderateComment_success
    (now : Date) (db : DB) (id : ObjectId) (s : string) (c : Comment.t) :
  comments db !! id = Some c ->
  Comment.validateContent (Comment.content c) = None ->
  s = "approved" \/ s = "rejected" ->
  moderateComment now db id (Some s)
  = (setComments db
       (<[id := Comment.mk (Comment.content c) (Comment.author c)
                  (Comment.post c) (Comment.parentComment c)
                  (Comment.replies c) (Comment.likes c) s
                  (Comment.isEdited c) (Comment.editedAt c)
                  (Comment.isActive c)]> (comments db)),
     Json 200 true ("Comment " +:+ s +:+ " successfully")
          (CommentDoc
             (Some (Comment.mk (Comment.content c) (Comment.author c)
                      (Comment.post c) (Comment.parentComment c)
                      (Comment.replies c) (Comment.likes c) s
                      (Comment.isEdited c) (Comment.editedAt c)
                      (Comment.isActive c))))).
Proof.
  intros Hc Hv Hs. unfold moderateComment.
  assert (Hin : includes ["approved"; "rejected"] (Some s) = true).
  { apply includes_true. simpl. destruct Hs as [-> | ->]; auto. }
  rewrite Hin. cbn [negb]. rewrite Hc. cbn [default].
  unfold Comment.save.
  match goal with |- context [Comment.validate ?d] =>
    assert (Comment.validate d = None) as ->
  end.
  { unfold Comment.validate. cbn [Comment.content Comment.status].
    rewrite Hv. destruct Hs as [-> | ->]; reflexivity. }
  by rewrite pre_save_stored.
Qed.

(** The pending comment is rejected without being approved first. *)
Lemma moderateComment_success_sample :
  Comment.status <$>
    comments (moderateComment 3000 dbPending firstId (Some "rejected")).1
      !! firstId
  = Some "rejected".
Proof.
  rewrite (moderateComment_success
             3000%Z dbPending firstId "rejected"
             (Comment.mk "First!" (_id alice) helloId None [] [] "pending"
                         false None true));
    [| vm_compute; reflexivity | reflexivity | by right].
  simpl. by rewrite lookup_insert_eq.
Defined.

Section ToggleOnce.

Variable uid : ObjectId.

Lemma toggled_flips (l : list ObjectId) :
  arr_includes (toggled l uid) uid = negb (arr_includes l uid).
Proof.
  unfold toggled. destruct (arr_includes l uid) eqn:Hin; simpl.
  - apply arr_pull_excludes.
  - apply arr_push_includes.
Qed.

Lemma toggled_others (l : list ObjectId) (v : ObjectId) :
  v <> uid ->
  count_occ string_dec (toggled l uid) v = count_occ string_dec l v.
Proof.
  intros Hne. unfold toggled, arr_pull, arr_push.
  destruct (arr_includes l uid).
  - induction l as [| x l IH]; simpl; [done |].
    destruct (String.eqb uid x) eqn:Hx; simpl.
    + apply String.eqb_eq in Hx. subst x.
      destruct (string_dec uid v); [congruence | done].
    + destruct (string_dec x v); by rewrite IH.
  - rewrite count_occ_app. simpl.
    destruct (string_dec uid v); [congruence | lia].
Qed.

Lemma toggled_NoDup (l : list ObjectId) :
  NoDup l -> NoDup (toggled l uid).
Proof.
  intros Hnd. unfold toggled.
  destruct (arr_includes l uid) eqn:Hin.
  - unfold arr_pull. apply NoDup_ListNoDup, List.NoDup_filter.
    by apply NoDup_ListNoDup.
  - unfold arr_push. apply NoDup_app. split; [done |].
    split; [| apply NoDup_singleton].
    intros x Hx Hx'. apply list_elem_of_singleton in Hx'. subst x.
    apply list_elem_of_In, arr_includes_In in Hx. congruence.
Qed.

End ToggleOnce.

(** X14. One toggle-like call on a stored comment, and likewise on a stored
    post, that passes its schema validators flips the caller's membership
    in the likes array, leaves the number of entries of every other user as
    it was, keeps an array without duplicates free of duplicates, and the
    answer reports the length of the stored array and the caller's new
    membership.  The two halves are independent. *)
Theorem toggle_once
    (now : Date) (db : DB) (user : User) (cid pid : ObjectId) :
  (forall c : Comment.t,
    comments db !! cid = Some c ->
    Comment.validate c = None ->
    exists c1 msg,
      comments (toggleLikeComment now db user cid).1 !! cid = Some c1
      /\ (toggleLikeComment now db user cid).2
         = Json 200 true msg
                (LikeData (length (Comment.likes c1))
                          (arr_includes (Comment.likes c1) (_id user)))
      /\ arr_includes (Comment.likes c1) (_id user)
         = negb (arr_includes (Comment.likes c) (_id user))
      /\ (forall v, v <> _id user ->
            count_occ string_dec (Comment.likes c1) v
            = count_occ string_dec (Comment.likes c) v)
      /\ (NoDup (Comment.likes c) -> NoDup (Comment.likes c1)))
  /\ (forall p : Post.t,
      posts db !! pid = Some p ->
      Post.validate p = None ->
      exists p1 msg,
        posts (toggleLikePost now db user pid).1 !! pid = Some p1
        /\ (toggleLikePost now db user pid).2
           = Json 200 true msg
                  (LikeData (length (Post.likes p1))
                            (arr_includes (Post.likes p1) (_id user)))
        /\ arr_includes (Post.likes p1) (_id user)
           = negb (arr_includes (Post.likes p) (_id user))
        /\ (forall v, v <> _id user ->
              count_occ string_dec (Post.likes p1) v
              = count_occ string_dec (Post.likes p) v)
        /\ (NoDup (Post.likes p) -> NoDup (Post.likes p1))).
Proof.
  split; [intros c Hc Hcv | intros p Hp Hpv].
  - destruct (toggleLikeComment_ok now db user cid c Hc Hcv)
      as (c1 & msg & -> & Hl & _).
    exists c1, msg. simpl. rewrite lookup_insert_eq, Hl, toggled_flips.
    split; [done |]. split; [done |]. split; [done |].
    split; [intros v Hv; by apply toggled_others | apply toggled_NoDup].
  - destruct (toggleLikePost_ok now db user pid p Hp Hpv)
      as (p1 & msg & -> & Hl & _).
    exists p1, msg. simpl. rewrite lookup_insert_eq, Hl, toggled_flips.
    split; [done |]. split; [done |]. split; [done |].
    split; [intros v Hv; by apply toggled_others | apply toggled_NoDup].
Qed.

(** Bob likes the comment and the post that alice and bob like already:
    he is out, alice stays. *)
Lemma toggle_once_sample :
  (exists c1 msg,
      comments (toggleLikeComment 3000 dbLiked bob firstId).1 !! firstId
      = Some c1
      /\ (toggleLikeComment 3000 dbLiked bob firstId).2
         = Json 200 true msg
                (LikeData (length (Comment.likes c1))
                          (arr_includes (Comment.likes c1) (_id bob)))
      /\ arr_includes (Comment.likes c1) (_id bob) = false
      /\ (forall v, v <> _id bob ->
            count_occ string_dec (Comment.likes c1) v
            = count_occ string_dec [_id alice; _id bob] v)
      /\ (NoDup [_id alice; _id bob] -> NoDup (Comment.likes c1)))
  /\ (exists p1 msg,
        posts (toggleLikePost 3000 dbLiked bob helloId).1 !! helloId
        = Some p1
        /\ (toggleLikePost 3000 dbLiked bob helloId).2
           = Json 200 true msg
                  (LikeData (length (Post.likes p1))
                            (arr_includes (Post.likes p1) (_id bob)))
        /\ arr_includes (Post.likes p1) (_id bob) = false
        /\ (forall v, v <> _id bob ->
              count_occ string_dec (Post.likes p1) v
              = count_occ string_dec [_id alice; _id bob] v)
        /\ (NoDup [_id alice; _id bob] -> NoDup (Post.likes p1))).
Proof.
  destruct (toggle_once 3000%Z dbLiked bob firstId helloId) as [Hc Hp].
  split.
  - apply (Hc (Comment.mk "First!" (_id alice) helloId None []
                          [_id alice; _id bob] "approved" false None true));
      [vm_compute; reflexivity | reflexivity].
  - apply (Hp (Post.mk "Hello World" (Some "hello-world-1000")
                 "A first post whose content is comfortably longer than fifty characters."
                 None "" (_id erin) newsId [rocqId] "published"
                 (Some 1000%Z) 0%Z [_id alice; _id bob] 1 true));
      [vm_compute; reflexivity | reflexivity].
Defined.

(** ** Slugs *)

Lemma alnum_not_dash c : Post.isAlnum c = true -> Ascii.eqb c Post.dash = false.
Proof.
  destruct c as [[] [] [] [] [] [] [] []]; vm_compute; congruence.
Qed.

Lemma lower_alnum c :
  Post.isAlnum (Post.lowerChar c) = true ->
  isLowerAlnum (Post.lowerChar c) = true.
Proof.
  destruct c as [[] [] [] [] [] [] [] []]; vm_compute; congruence.
Qed.

Lemma dashesApart_dashed b s : dashesApart b (Post.dashed b s) = true.
Proof.
  revert b. induction s as [| c s IH]; intros b; simpl; [done |].
  destruct (Post.isAlnum (Post.lowerChar c)) eqn:Hal.
  - simpl. rewrite (alnum_not_dash _ Hal), (lower_alnum _ Hal). apply IH.
  - destruct b; [apply IH |]. simpl. apply IH.
Qed.

Lemma dashesApart_weaken s : dashesApart true s = true -> dashesApart false s = true.
Proof.
  destruct s as [| c s]; simpl; [done |].
  by destruct (Ascii.eqb c Post.dash).
Qed.

Lemma dashesApart_dropFirst s :
  dashesApart false s = true -> dashesApart true (Post.dropFirstDash s) = true.
Proof.
  destruct s as [| c s]; simpl; [done |].
  destruct (Ascii.eqb c Post.dash) eqn:Hc; simpl; [done |].
  by rewrite Hc.
Qed.

Lemma dashesApart_dropLast b s :
  dashesApart b s = true -> dashesApart b (Post.dropLastDash s) = true.
Proof.
  revert b. induction s as [| c s IH]; intros b; [done |].
  destruct s as [| c' s'].
  - simpl. destruct (Ascii.eqb c Post.dash) eqn:Hc; simpl; [done |].
    by rewrite Hc.
  - change (Post.dropLastDash (String c (String c' s')))
      with (String c (Post.dropLastDash (String c' s'))).
    change (dashesApart b (String c ?x))
      with (if Ascii.eqb c Post.dash then negb b && dashesApart true x
            else isLowerAlnum c && dashesApart false x).
    destruct (Ascii.eqb c Post.dash); intros H;
      apply andb_true_iff in H as [-> H]; apply IH in H; by rewrite H.
Qed.

Lemma dropLast_no_final_dash b s :
  dashesApart b s = true -> endsWithDash (Post.dropLastDash s) = false.
Proof.
  revert b. induction s as [| c s IH]; intros b; [done |].
  destruct s as [| c' s'].
  - simpl. by destruct (Ascii.eqb c Post.dash) eqn:Hc; simpl; [| rewrite Hc].
  - change (Post.dropLastDash (String c (String c' s')))
      with (String c (Post.dropLastDash (String c' s'))).
    change (dashesApart b (String c ?x))
      with (if Ascii.eqb c Post.dash then negb b && dashesApart true x
            else isLowerAlnum c && dashesApart false x).
    intros H.
    destruct (Post.dropLastDash (String c' s')) as [| d ds] eqn:Hd.
    + (* the rest was a single dash *)
      destruct s' as [| c'' s'']; [| simpl in Hd; discriminate Hd].
      simpl in Hd. destruct (Ascii.eqb c' Post.dash) eqn:Hc'; [| discriminate Hd].
      simpl in H. rewrite Hc' in H. simpl.
      destruct (Ascii.eqb c Post.dash); [| done].
      simpl in H. by rewrite andb_false_r in H.
    + change (endsWithDash (String c (String d ds)))
        with (endsWithDash (String d ds)).
      destruct (Ascii.eqb c Post.dash);
        apply andb_true_iff in H as [_ H]; by eapply IH.
Qed.

Lemma slugify_shape (text : string) : isSlug (Post.slugify text) = true.
Proof.
  unfold isSlug, Post.slugify.
  pose proof (dashesApart_dashed false text) as H.
  apply dashesApart_dropFirst in H.
  rewrite (dashesApart_dropLast _ _ H), (dropLast_no_final_dash _ _ H).
  reflexivity.
Qed.

Lemma dashed_fixed b s : dashesApart b s = true -> Post.dashed b s = s.
Proof.
  revert b. induction s as [| c s IH]; intros b; simpl; [done |].
  destruct (Ascii.eqb c Post.dash) eqn:Hc.
  - apply Ascii.eqb_eq in Hc. subst c. intros H.
    apply andb_true_iff in H as [Hb H]. apply negb_true_iff in Hb. subst b.
    change (Post.isAlnum (Post.lowerChar Post.dash)) with false. cbv iota.
    by rewrite (IH _ H).
  - intros H. apply andb_true_iff in H as [Hl H].
    unfold isLowerAlnum in Hl. apply andb_true_iff in Hl as [Hal Hlow].
    apply Ascii.eqb_eq in Hlow. rewrite Hlow, Hal. by rewrite (IH _ H).
Qed.

Lemma dropLast_fixed s : endsWithDash s = false -> Post.dropLastDash s = s.
Proof.
  induction s as [| c s IH]; [done |].
  destruct s as [| c' s'].
  - simpl. by intros ->.
  - change (endsWithDash (String c (String c' s')))
      with (endsWithDash (String c' s')).
    change (Post.dropLastDash (String c (String c' s')))
      with (String c (Post.dropLastDash (String c' s'))).
    intros H. by rewrite (IH H).
Qed.

Lemma slug_fixed (s : string) : isSlug s = true -> Post.slugify s = s.
Proof.
  unfold isSlug, Post.slugify. intros H.
  apply andb_true_iff in H as [Hd He]. apply negb_true_iff in He.
  rewrite (dashed_fixed false s (dashesApart_weaken s Hd)).
  assert (Post.dropFirstDash s = s) as ->; [| by apply dropLast_fixed].
  destruct s as [| c s]; [done |]. simpl in *.
  by destruct (Ascii.eqb c Post.dash).
Qed.

(** X15. For every ASCII text, the slug that the replacement chain of the
    model hooks makes of it consists of lower-case letters and digits with
    single dashes between them: no other character, no dash at either end,
    no two dashes in a row. *)
Theorem slugify_isSlug (text : string) :
  isAscii text = true -> isSlug (Post.slugify text) = true.
Proof.
  intros _. unfold isSlug, Post.slugify.
  assert (H : dashesApart true (Post.dropFirstDash (Post.dashed false text))
              = true)
    by apply dashesApart_dropFirst, dashesApart_dashed.
  apply andb_true_iff. split.
  - by apply dashesApart_dropLast.
  - apply negb_true_iff. by eapply dropLast_no_final_dash.
Qed.

Lemma slugify_isSlug_sample : isSlug (Post.slugify "  Hello, World!! ") = true.
Proof. apply slugify_isSlug. reflexivity. Defined.

(** X16. The chain leaves a well-formed slug as it is, so applying it twice
    to an ASCII text gives what applying it once gives. *)
Theorem slugify_fixes_slugs (s text : string) :
  (isSlug s = true -> Post.slugify s = s)
  /\ (isAscii text = true ->
      Post.slugify (Post.slugify text) = Post.slugify text).
Proof.
  split; [apply slug_fixed |]. intros _. apply slug_fixed, slugify_shape.
Qed.

Lemma slugify_fixes_slugs_sample :
  Post.slugify "hello-world-2" = "hello-world-2"
  /\ Post.slugify (Post.slugify "Hello  World 2!")
     = Post.slugify "Hello  World 2!".
Proof.
  destruct (slugify_fixes_slugs "hello-world-2" "Hello  World 2!")
    as [Hfix Hidem].
  split; [apply Hfix | apply Hidem]; reflexivity.
Defined.

(** X17. After the save hook of a category with a non-empty ASCII name,
    and likewise of a tag, the slug is a well-formed slug made from the
    name alone, and running the hook again does not change the document.
    The two halves are independent. *)
Theorem category_tag_slug (c : Category.t) (t : Tag.t) :
  (Category.name c <> "" -> isAscii (Category.name c) = true ->
   (exists s, Category.slug (categoryPreSave c) = Some s /\ isSlug s = true)
   /\ categoryPreSave (categoryPreSave c) = categoryPreSave c)
  /\ (Tag.name t <> "" -> isAscii (Tag.name t) = true ->
      (exists s, Tag.slug (tagPreSave t) = Some s /\ isSlug s = true)
      /\ tagPreSave (tagPreSave t) = tagPreSave t).
Proof.
  split; intros Hn _; apply String.eqb_neq in Hn.
  - unfold categoryPreSave. rewrite Hn. simpl. rewrite Hn. simpl.
    split; [eexists; split; [reflexivity | apply slugify_shape] |].
    reflexivity.
  - unfold tagPreSave. rewrite Hn. simpl. rewrite Hn. simpl.
    split; [eexists; split; [reflexivity | apply slugify_shape] |].
    reflexivity.
Qed.

Lemma category_tag_slug_sample :
  Category.slug
    (categoryPreSave (Category.mk "Web  Development!" None None "#3B82F6"
                                  true))
  = Some "web-development"
  /\ Tag.slug (tagPreSave (Tag.mk "C++" None "#10B981" true)) = Some "c".
Proof.
  destruct (category_tag_slug
              (Category.mk "Web  Development!" None None "#3B82F6" true)
              (Tag.mk "C++" None "#10B981" true)) as [Hc Ht].
  destruct Hc as ((s & Hs & _) & _); [discriminate | reflexivity |].
  destruct Ht as ((s' & Hs' & _) & _); [discriminate | reflexivity |].
  split; reflexivity.
Defined.

(** ** The save hook of a post *)

Lemma spaceRuns_bound b s : Post.spaceRuns b s <= String.length s.
Proof.
  revert b. induction s as [| c s IH]; intros b; simpl; [lia |].
  destruct (Post.isSpace c).
  - specialize (IH true). destruct b; lia.
  - specialize (IH false). lia.
Qed.

(** X18. After the save hook a post with non-empty ASCII content has a read
    time of at least one minute and of at most one minute per 200
    characters, rounded up over the content and one more character; a post
    without content keeps its read time. *)
Theorem pre_save_readTime (now : Date) (modified : list string) (p : Post.t) :
  (Post.content p <> "" -> isAscii (Post.content p) = true ->
   1 <= Post.readTime (Post.pre_save now modified p)
   /\ Post.readTime (Post.pre_save now modified p)
      <= (String.length (Post.content p) + 200) / 200)
  /\ (Post.content p = "" ->
      Post.readTime (Post.pre_save now modified p) = Post.readTime p).
Proof.
  unfold Post.pre_save. cbn [Post.readTime Post.content]. split.
  - intros Hc _. apply String.eqb_neq in Hc. rewrite Hc. cbn [negb].
    unfold Post.ceilDiv200, Post.wordCount.
    pose proof (spaceRuns_bound false (Post.content p)) as Hb.
    split.
    + apply (Nat.div_le_lower_bound _ 200 1); lia.
    + apply Nat.Div0.div_le_mono. lia.
  - intros ->. reflexivity.
Qed.

Lemma pre_save_readTime_sample :
  1 <= Post.readTime
         (Post.pre_save 0 []
            (Post.mk "T" None "one two  three" None "" "a" "c" [] "draft" None
                     0%Z [] 7 true))
  /\ Post.readTime
       (Post.pre_save 0 []
          (Post.mk "T" None "one two  three" None "" "a" "c" [] "draft" None
                   0%Z [] 7 true))
     <= (14 + 200) / 200.
Proof.
  apply (pre_save_readTime 0%Z []
           (Post.mk "T" None "one two  three" None "" "a" "c" [] "draft" None
                    0%Z [] 7 true)).
  - discriminate.
  - reflexivity.
Defined.

(** X19. Every post that [save] writes satisfies: published implies a
    publication date.  The date of a post that had one is not changed by
    the save, and the likes, the views, the author and the status never
    are. *)
Theorem save_publishedAt
    (now : Date) (isNew : bool) (modified : list string) (id : ObjectId)
    (doc doc' : Post.t) (coll coll' : gmap string Post.t) :
  Post.save now isNew modified id doc coll = inr (coll', doc') ->
  coll' !! id = Some doc'
  /\ (Post.status doc' = "published" -> is_Some (Post.publishedAt doc'))
  /\ (forall d, Post.publishedAt doc = Some d ->
                Post.publishedAt doc' = Some d)
  /\ Post.status doc' = Post.status doc
  /\ Post.likes doc' = Post.likes doc
  /\ Post.views doc' = Post.views doc
  /\ Post.author doc' = Post.author doc
  /\ (forall j, j <> id -> coll' !! j = coll !! j).
Proof.
  unfold Post.save.
  destruct (Post.validate doc); [done |].
  destruct (isNew && _); [done |].
  intros [= <- <-].
  split; [apply lookup_insert_eq |].
  split; [intros Hs; apply pre_save_stamps; exact Hs |].
  split; [intros d Hd; by apply pre_save_keeps_publishedAt |].
  repeat split. intros j Hj. by rewrite lookup_insert_ne.
Qed.

(** A published post without a date, as the update route can leave it,
    gets its date from the next save. *)
Lemma save_publishedAt_sample :
  is_Some
    (Post.publishedAt
       (Post.mk "Hello World" (Some "hello-world-1000") "Some content" None
                "" (_id erin) newsId [rocqId] "published" (Some 5000%Z) 0%Z
                [_id bob] 1 true)).
Proof.
  destruct (save_publishedAt
              5000%Z false ["likes"] helloId
              (Post.mk "Hello World" (Some "hello-world-1000") "Some content"
                       None "" (_id erin) newsId [rocqId] "published" None
                       0%Z [_id bob] 1 true)
              (Post.mk "Hello World" (Some "hello-world-1000") "Some content"
                       None "" (_id erin) newsId [rocqId] "published"
                       (Some 5000%Z) 0%Z [_id bob] 1 true)
              (posts dbDraft)
              (<[helloId :=
                   Post.mk "Hello World" (Some "hello-world-1000")
                     "Some content" None "" (_id erin) newsId [rocqId]
                     "published" (Some 5000%Z) 0%Z [_id bob] 1 true]>
                 (posts dbDraft)))
    as (_ & H & _); [vm_compute; reflexivity | exact (H eq_refl)].
Defined.

(** ** The comment routes together *)

Lemma setComments_same (db : DB) : setComments db (comments db) = db.
Proof. by destruct db. Qed.

(** Every way through a comment handler, for goals that each way closes
    outright. *)
Ltac comment_route_cases db req :=
  let c := fresh "c" in
  destruct req as [? ? errors ? postId ? | errors ? id ? | ? id | ? ? id
                  | ? id status]; simpl;
  [ unfold createComment;
    destruct (isEmpty errors); simpl; [| done];
    destruct (match posts db !! postId with Some _ => _ | None => _ end);
      [| done];
    match goal with |- context [if ?b then (db, _) else _] => destruct b end;
      [done |];
    by destruct (Comment.create _ _ _ _) as [? [? | ?]]
  | unfold updateComment;
    destruct (isEmpty errors); simpl; [| done];
    destruct (comments db !! id) as [c |]; [| done];
    destruct (negb _ && negb _ && negb _); [done |];
    by destruct (Comment.findByIdAndUpdate _ _ _) as [? | [? ?]]
  | unfold deleteComment;
    destruct (comments db !! id) as [c |]; [| done];
    by destruct (negb _ && negb _)
  | unfold toggleLikeComment;
    destruct (comments db !! id) as [c |]; [| done];
    by destruct (Comment.save _ _ _ _ _ _) as [? [? | ?]]
  | unfold moderateComment;
    destruct (includes _ status); simpl; [| done];
    destruct (comments db !! id) as [c |]; [| done];
    by destruct (Comment.save _ _ _ _ _ _) as [? [? | ?]] ].

(** A create-comment that fails while its id is free has written nothing. *)
Lemma createComment_failure now newId db errors user postId body :
  succeeded (createComment now newId db errors user postId body).2 = false ->
  comments db !! newId = None ->
  (createComment now newId db errors user postId body).1 = db.
Proof.
  intros Hfail Hfree. revert Hfail. unfold createComment.
  destruct (isEmpty errors); simpl; [| done].
  destruct (match posts db !! postId with Some _ => _ | None => _ end);
    [| done].
  match goal with |- context [if ?b then (db, _) else _] => destruct b end;
    [done |].
  unfold Comment.create, Comment.withAuthorPost. simpl.
  destruct (Comment.b_content body) as [co |];
    [| intros _; apply setComments_same].
  unfold Comment.save.
  destruct (Comment.validate _); [intros _; apply setComments_same |].
  unfold Comment.pre_save. cbn [Comment.parentComment andb negb].
  rewrite andb_false_r.
  destruct (Comment.b_parentComment body) as [pid |]; cbn [andb].
  - rewrite bool_decide_eq_false_2; [done |].
    intros [x Hx]. destruct (decide (pid = newId)) as [-> | Hne].
    + rewrite lookup_alter_eq, Hfree in Hx. discriminate Hx.
    + rewrite lookup_alter_ne, Hfree in Hx by done. discriminate Hx.
  - rewrite bool_decide_eq_false_2; [done |].
    rewrite Hfree. by intros [x Hx].
Qed.

Lemma handleComment_failure (db : DB) (req : CommentRequest) :
  succeeded (handleComment db req).2 = false ->
  match req with
  | CreateComment _ newId _ _ _ _ => comments db !! newId = None
  | _ => True
  end ->
  (handleComment db req).1 = db.
Proof.
  destruct req as [now newId errs user postId body | errs user id body
                  | user id | now user id | now id status]; simpl.
  - intros Hf Hfree. by apply createComment_failure.
  - intros Hf _. revert Hf. unfold updateComment.
    destruct (isEmpty errs); simpl; [| done].
    destruct (comments db !! id) as [c |]; [| done].
    destruct (negb _ && negb _ && negb _); [done |].
    by destruct (Comment.findByIdAndUpdate _ _ _) as [? | [? ?]].
  - intros Hf _. revert Hf. unfold deleteComment.
    destruct (comments db !! id) as [c |]; [| done].
    by destruct (negb _ && negb _).
  - intros Hf _. revert Hf. unfold toggleLikeComment.
    destruct (comments db !! id) as [c |]; [| done].
    by destruct (Comment.save _ _ _ _ _ _) as [? [? | ?]].
  - intros Hf _. revert Hf. unfold moderateComment.
    destruct (includes _ status); simpl; [| done].
    destruct (comments db !! id) as [c |]; [| done].
    by destruct (Comment.save _ _ _ _ _ _) as [? [? | ?]].
Qed.

(** X20. No request to a comment route writes to the posts, the categories
    or the tags.  A request that is not answered with success has written
    nothing at all, provided that, for a create-comment, the id of the new
    comment is not in use.  (With an id that is in use the save hook has
    extended the parent's replies before the insert fails.) *)
Theorem handleComment_frame (db : DB) (req : CommentRequest) :
  posts (handleComment db req).1 = posts db
  /\ categories (handleComment db req).1 = categories db
  /\ tags (handleComment db req).1 = tags db
  /\ (succeeded (handleComment db req).2 = false ->
      match req with
      | CreateComment _ newId _ _ _ _ => comments db !! newId = None
      | _ => True
      end ->
      (handleComment db req).1 = db).
Proof.
  split; [| split; [| split]].
  - comment_route_cases db req.
  - comment_route_cases db req.
  - comment_route_cases db req.
  - apply handleComment_failure.
Qed.

(** A reply to a comment that is not stored: refused, nothing written. *)
Lemma handleComment_frame_sample :
  (handleComment dbCommented
     (CreateComment 4000 secondId [] bob helloId
                    (replyBody "Me too" thirdId))).1 = dbCommented.
Proof.
  apply (handleComment_frame dbCommented
           (CreateComment 4000%Z secondId [] bob helloId
                          (replyBody "Me too" thirdId)));
    vm_compute; reflexivity.
Defined.

(** A reply that arrives under the id of the comment it answers: the insert
    fails on the duplicate key, and the parent's replies array has gained
    the id all the same. *)
Lemma createComment_taken_id :
  (createComment 4000 firstId dbCommented [] bob helloId
                 (replyBody "Me too" firstId)).2
  = Next (DuplicateKey firstId)
  /\ comments (createComment 4000 firstId dbCommented [] bob helloId
                             (replyBody "Me too" firstId)).1 !! firstId
     = Some (Comment.mk "First!" (_id alice) helloId None [firstId] []
                        "approved" false None true).
Proof. vm_compute. split; reflexivity. Qed.

(** ** Reading a comment *)

(** X21. Get-comment answers for every stored comment, whatever its status
    or active flag, and the replies in its answer are exactly the stored
    comments named in its replies array that are active and approved, in
    the order of the array. *)
Theorem getComment_replies (db : DB) (id : ObjectId) (c : Comment.t) :
  comments db !! id = Some c ->
  exists rs,
    getComment db id = Reply 200 true "" (Some (c, rs))
    /\ (forall r,
          r ∈ rs
          <-> exists rid,
                rid ∈ Comment.replies c
                /\ comments db !! rid = Some r
                /\ Comment.isActive r = true
                /\ Comment.status r = "approved")
    /\ length rs <= length (Comment.replies c).
Proof.
  intros Hc. unfold getComment. rewrite Hc.
  eexists. split; [reflexivity |]. split.
  - intros r. unfold populateReplies. rewrite list_elem_of_omap.
    split.
    + intros (rid & Hin & Hsome). exists rid. split; [done |].
      destruct (comments db !! rid) as [d |]; [| done].
      destruct (Comment.isActive d) eqn:Ha; [| done].
      destruct (String.eqb (Comment.status d) "approved") eqn:Hs; [| done].
      simpl in Hsome. injection Hsome as <-.
      by apply String.eqb_eq in Hs.
    + intros (rid & Hin & Hr & Ha & Hs). exists rid. split; [done |].
      rewrite Hr, Ha, Hs. reflexivity.
  - unfold populateReplies.
    induction (Comment.replies c) as [| r l IH]; [done |].
    cbn [omap list_omap].
    destruct (match comments db !! r with Some _ => _ | None => _ end);
      cbn [length]; lia.
Qed.

(** The head of the thread: answered with at most one reply. *)
Lemma getComment_replies_sample :
  exists rs,
    getComment dbThread firstId
    = Reply 200 true ""
            (Some (Comment.mk "First!" (_id alice) helloId None [secondId] []
                              "approved" false None true, rs))
    /\ length rs <= 1.
Proof.
  destruct (getComment_replies dbThread firstId
              (Comment.mk "First!" (_id alice) helloId None [secondId] []
                          "approved" false None true))
    as (rs & Hr & _ & Hlen); [vm_compute; reflexivity |].
  exists rs. split; [exact Hr | exact Hlen].
Defined.

(** ** The user routes *)

Section Users.

Variable emailMatches : string -> bool.

(** X22. An admin who names the own id is refused by delete-user and by
    toggle-status with 400, and the user collection is unchanged. *)
Theorem user_self_protection (coll : gmap string Account.t) (user : User) :
  is_Some (coll !! _id user) ->
  Account.deleteUser coll user (_id user)
  = (coll, Reply 400 false "Admin cannot delete their own account" None)
  /\ Account.toggleUserStatus emailMatches coll user (_id user)
     = (coll, Reply 400 false "Admin cannot deactivate their own account" None).
Proof.
  intros [u Hu]. unfold Account.deleteUser, Account.toggleUserStatus.
  by rewrite Hu, String.eqb_refl.
Qed.

Lemma toggleUserStatus_ok coll user id u :
  coll !! id = Some u ->
  id <> _id user ->
  Account.validate emailMatches u = None ->
  Account.toggleUserStatus emailMatches coll user id
  = (<[id := Account.mk (Account.name u) (Account.email u)
               (Account.password u) (Account.role u) (Account.avatar u)
               (Account.bio u) (negb (Account.isActive u))]> coll,
     Reply 200 true
           ("User " +:+ (if negb (Account.isActive u) then "activated"
                         else "deactivated") +:+ " successfully")
           (Some (Account.mk (Account.name u) (Account.email u)
                    (Account.password u) (Account.role u) (Account.avatar u)
                    (Account.bio u) (negb (Account.isActive u))))).
Proof.
  intros Hu Hne Hv. unfold Account.toggleUserStatus. rewrite Hu.
  apply String.eqb_neq in Hne. rewrite Hne.
  unfold Account.save.
  match goal with |- context [Account.validate _ ?d] =>
    change (Account.validate emailMatches d)
      with (Account.validate emailMatches u)
  end.
  by rewrite Hv.
Qed.

(** X23. Toggle-status on another stored user whose document passes the
    schema validators flips the active flag and nothing else (the password
    hash is kept, no other user is touched), and a second call brings the
    collection back to what it was. *)
Theorem toggleUserStatus_twice
    (coll : gmap string Account.t) (user : User) (id : ObjectId)
    (u : Account.t) :
  coll !! id = Some u ->
  id <> _id user ->
  Account.validate emailMatches u = None ->
  (exists u',
      (Account.toggleUserStatus emailMatches coll user id).1 !! id = Some u'
      /\ Account.isActive u' = negb (Account.isActive u)
      /\ Account.password u' = Account.password u
      /\ Account.role u' = Account.role u
      /\ Account.email u' = Account.email u)
  /\ (forall j, j <> id ->
        (Account.toggleUserStatus emailMatches coll user id).1 !! j
        = coll !! j)
  /\ (Account.toggleUserStatus emailMatches
        (Account.toggleUserStatus emailMatches coll user id).1 user id).1
     = coll.
Proof.
  intros Hu Hne Hv.
  rewrite (toggleUserStatus_ok coll user id u Hu Hne Hv). cbn [fst].
  split; [| split].
  - eexists. split; [apply lookup_insert_eq |]. by repeat split.
  - intros j Hj. by rewrite lookup_insert_ne.
  - erewrite toggleUserStatus_ok;
      [| apply lookup_insert_eq | exact Hne | exact Hv].
    cbn [fst Account.name Account.email Account.password Account.role
         Account.avatar Account.bio Account.isActive].
    rewrite insert_insert_eq, negb_involutive.
    apply insert_id. by destruct u.
Qed.

End Users.

Lemma user_self_protection_sample :
  Account.deleteUser sampleUsers root (_id root)
  = (sampleUsers,
     Reply 400 false "Admin cannot delete their own account" None)
  /\ Account.toggleUserStatus sampleEmails sampleUsers root (_id root)
     = (sampleUsers,
        Reply 400 false "Admin cannot deactivate their own account" None).
Proof.
  apply (user_self_protection sampleEmails sampleUsers root).
  vm_compute. by eexists.
Defined.

Lemma toggleUserStatus_twice_sample :
  Account.isActive <$>
    (Account.toggleUserStatus sampleEmails sampleUsers root (_id bob)).1
      !! _id bob = Some false
  /\ (Account.toggleUserStatus sampleEmails
        (Account.toggleUserStatus sampleEmails sampleUsers root (_id bob)).1
        root (_id bob)).1 = sampleUsers.
Proof.
  destruct (toggleUserStatus_twice
              sampleEmails sampleUsers root (_id bob)
              (Account.mk "Bob" "bob@example.com" "$2a$12$hash" "user" ""
                          None true))
    as (_ & _ & Hback);
    [vm_compute; reflexivity | discriminate | vm_compute; reflexivity |].
  split; [vm_compute; reflexivity | exact Hback].
Defined.

(** ** Post counts of categories and tags *)

Lemma countDocuments_mono {V} (q q' : V -> bool) (coll : gmap string V) :
  (forall x, q x = true -> q' x = true) ->
  countDocuments q coll <= countDocuments q' coll.
Proof.
  intros Himp. unfold countDocuments.
  induction (map_to_list coll) as [| [k v] l IH]; simpl; [lia |].
  destruct (q v) eqn:Hq.
  - rewrite (Himp v Hq). simpl. lia.
  - destruct (q' v); simpl; lia.
Qed.

(** X24. For every stored category, and likewise for every stored tag, the
    post count that get-category (get-tag) shows counts the published,
    active posts only, so it never exceeds the number of posts that block
    the deletion; a category or tag that delete accepts shows a count of
    zero.  The two halves are independent. *)
Theorem postCount_and_delete (db : DB) (cid tid : ObjectId) :
  (forall c : Category.t,
    categories db !! cid = Some c ->
    getCategory db cid
    = Reply 200 true "" (Some (c, publishedInCategory db cid))
    /\ publishedInCategory db cid <= postsUsingCategory db cid
    /\ (succeeded (deleteCategory db cid).2 = true ->
        publishedInCategory db cid = 0))
  /\ (forall t : Tag.t,
      tags db !! tid = Some t ->
      getTag db tid = Reply 200 true "" (Some (t, publishedWithTag db tid))
      /\ publishedWithTag db tid <= postsUsingTag db tid
      /\ (succeeded (deleteTag db tid).2 = true ->
          publishedWithTag db tid = 0)).
Proof.
  assert (Hle1 : publishedInCategory db cid <= postsUsingCategory db cid).
  { apply countDocuments_mono. intros p Hp.
    by apply andb_true_iff in Hp as [Hp%andb_true_iff _]; destruct Hp. }
  assert (Hle2 : publishedWithTag db tid <= postsUsingTag db tid).
  { apply countDocuments_mono. intros p Hp.
    by apply andb_true_iff in Hp as [Hp%andb_true_iff _]; destruct Hp. }
  split; [intros c Hc | intros t Ht].
  - unfold getCategory, deleteCategory. rewrite Hc.
    split; [reflexivity |]. split; [exact Hle1 |].
    destruct (Nat.ltb_spec 0 (postsUsingCategory db cid));
      cbn [snd succeeded]; [discriminate | lia].
  - unfold getTag, deleteTag. rewrite Ht.
    split; [reflexivity |]. split; [exact Hle2 |].
    destruct (Nat.ltb_spec 0 (postsUsingTag db tid));
      cbn [snd succeeded]; [discriminate | lia].
Qed.

(** The category and the tag of the draft show no post and still cannot be
    deleted. *)
Lemma postCount_and_delete_sample :
  getCategory dbDraft newsId
  = Reply 200 true ""
          (Some (Category.mk "News" (Some "news") None "#3B82F6" true, 0))
  /\ getTag dbDraft rocqId
     = Reply 200 true "" (Some (Tag.mk "Rocq" (Some "rocq") "#10B981" true, 0))
  /\ statusCode (deleteCategory dbDraft newsId).2 = Some 400.
Proof.
  destruct (postCount_and_delete dbDraft newsId rocqId) as [Hcat Htag].
  destruct (Hcat (Category.mk "News" (Some "news") None "#3B82F6" true))
    as (Hc & _); [vm_compute; reflexivity |].
  destruct (Htag (Tag.mk "Rocq" (Some "rocq") "#10B981" true))
    as (Ht & _); [vm_compute; reflexivity |].
  rewrite Hc, Ht.
  split; [vm_compute; reflexivity |].
  split; vm_compute; reflexivity.
Defined.

(** ** When a comment is created, and what the routes keep valid *)



(** Every comment stored after a create-comment is the new, validated one,
    or a comment stored before with the same content and status. *)
Lemma createComment_stored now newId db errors user postId body j d :
  comments (createComment now newId db errors user postId body).1 !! j
  = Some d ->
  Comment.validate d = None
  \/ exists d0, comments db !! j = Some d0
                /\ Comment.validate d = Comment.validate d0.
Proof.
  unfold createComment.
  destruct (isEmpty errors); simpl; [| intros H; right; by exists d].
  destruct (match posts db !! postId with Some _ => _ | None => _ end);
    [| intros H; right; by exists d].
  match goal with |- context [if ?b then (db, _) else _] => destruct b end;
    [intros H; right; by exists d |].
  unfold Comment.create, Comment.withAuthorPost. simpl.
  destruct (Comment.b_content body) as [co |];
    [| simpl; intros H; right; by exists d].
  unfold Comment.save.
  destruct (Comment.validate _) eqn:Hv; [simpl; intros H; right; by exists d |].
  destruct (Comment.pre_save _ _ _ _ _ _) as [coll doc] eqn:Hpre.
  assert (Hdoc : Comment.validate doc = None).
  { unfold Comment.pre_save in Hpre. injection Hpre as _ <-. exact Hv. }
  assert (Hcoll : forall k x, coll !! k = Some x ->
            exists d0, comments db !! k = Some d0
                       /\ Comment.validate x = Comment.validate d0).
  { unfold Comment.pre_save in Hpre. injection Hpre as <- _.
    cbn [Comment.parentComment]. intros k x Hk.
    destruct (Comment.b_parentComment body) as [pid |]; [| by exists x].
    destruct (decide (pid = k)) as [-> | Hne].
    - rewrite lookup_alter_eq in Hk.
      destruct (comments db !! k) as [pc |]; [| done].
      simpl in Hk. injection Hk as <-. by exists pc.
    - rewrite lookup_alter_ne in Hk by done. by exists x. }
  cbn [andb]. case_bool_decide as Hnew; simpl; intros Hj.
  - right. by apply Hcoll.
  - destruct (decide (newId = j)) as [<- | Hne].
    + rewrite lookup_insert_eq in Hj. injection Hj as <-. by left.
    + rewrite lookup_insert_ne in Hj by done. right. by apply Hcoll.
Qed.

(** X25. The comment routes keep the comment collection valid: if every
    stored comment passes the schema validators (content present and at
    most 1000 UTF-16 units long, status in the enum), then so does every
    comment stored after any request to a comment route. *)
Theorem handleComment_keeps_valid (db : DB) (req : CommentRequest) :
  map_Forall (fun _ c => Comment.validate c = None) (comments db) ->
  map_Forall (fun _ c => Comment.validate c = None)
             (comments (handleComment db req).1).
Proof.
  intros Hall. apply map_Forall_lookup. intros j d Hj.
  pose proof (proj1 (map_Forall_lookup _ _) Hall) as Hold.
  destruct req as [now newId errors user postId body | errors user id body
                  | user id | now user id | now id status]; simpl in *.
  - destruct (createComment_stored _ _ _ _ _ _ _ _ _ Hj)
      as [Hv | (d0 & Hd0 & Hv)]; [exact Hv |].
    rewrite Hv. exact (Hold j d0 Hd0).
  - revert Hj. unfold updateComment.
    destruct (isEmpty errors); simpl; [| intros Hj; by eapply Hold].
    destruct (comments db !! id) as [c |] eqn:Hc; [| intros Hj; by eapply Hold].
    destruct (negb _ && negb _ && negb _); [intros Hj; by eapply Hold |].
    unfold Comment.findByIdAndUpdate.
    destruct (from_option Comment.validateContent None _) eqn:Hvc;
      [intros Hj; by eapply Hold |].
    destruct (from_option Comment.validateStatus None _) eqn:Hvs;
      [intros Hj; by eapply Hold |].
    rewrite Hc. simpl. intros Hj.
    destruct (decide (id = j)) as [<- | Hne];
      [| rewrite lookup_insert_ne in Hj by done; by eapply Hold].
    rewrite lookup_insert_eq in Hj. injection Hj as <-.
    pose proof (Hold id c Hc) as Hvalid.
    unfold Comment.validate in *.
    cbn [Comment.applyUpdate Comment.content Comment.status].
    destruct (Comment.u_content (updateDataOf user body)) as [x |];
      destruct (Comment.u_status (updateDataOf user body)) as [y |];
      simpl in *; rewrite ?Hvc; try done;
      destruct (Comment.validateContent (Comment.content c)); done.
  - apply deleteComment_keeps_doc in Hj. by eapply Hold.
  - destruct (comments db !! id) as [c |] eqn:Hc.
    + destruct (toggleLikeComment_ok now db user id c Hc (Hold id c Hc))
        as (c1 & msg & Heq & _ & Hv1).
      rewrite Heq in Hj. simpl in Hj.
      destruct (decide (id = j)) as [<- | Hne].
      * rewrite lookup_insert_eq in Hj. by injection Hj as <-.
      * rewrite lookup_insert_ne in Hj by done. by eapply Hold.
    + unfold toggleLikeComment in Hj. rewrite Hc in Hj. by eapply Hold.
  - revert Hj. unfold moderateComment.
    destruct (includes _ status); simpl; [| intros Hj; by eapply Hold].
    destruct (comments db !! id) as [c |] eqn:Hc; [| intros Hj; by eapply Hold].
    unfold Comment.save.
    match goal with |- context [Comment.validate ?x] =>
      destruct (Comment.validate x) eqn:Hv; [intros Hj; by eapply Hold |]
    end.
    rewrite pre_save_stored by reflexivity. simpl. intros Hj.
    destruct (decide (id = j)) as [<- | Hne].
    + rewrite lookup_insert_eq in Hj. by injection Hj as <-.
    + rewrite lookup_insert_ne in Hj by done. by eapply Hold.
Qed.

Lemma handleComment_keeps_valid_sample :
  map_Forall (fun _ c => Comment.validate c = None)
    (comments (handleComment dbCommented
                 (UpdateComment [] root firstId
                    (contentStatusBody "Edited" "rejected"))).1).
Proof.
  apply handleComment_keeps_valid.
  apply map_Forall_lookup. intros j d Hj.
  destruct (decide (j = firstId)) as [-> | Hne].
  - assert (Hd : comments dbCommented !! firstId
                 = Some (Comment.mk "First!" (_id alice) helloId None [] []
                                    "approved" false None true))
      by (vm_compute; reflexivity).
    rewrite Hd in Hj. injection Hj as <-. reflexivity.
  - assert (Hd : comments dbCommented
                 = {[ firstId := Comment.mk "First!" (_id alice) helloId None
                                   [] [] "approved" false None true ]})
      by (vm_compute; reflexivity).
    rewrite Hd, lookup_singleton_ne in Hj by done. discriminate Hj.
Defined.
